(** * larascript-acl: a shallow embedding of the ACL service and the ACL mixin

    The repository offers role-based access control in two classes:
    [BasicACLService] (a service object that works on an entity handed to
    it) and [ComposableACL] (a mixin that makes a class its own entity).
    Both are embedded below method by method; JavaScript exceptions are made
    explicit with a small error monad, and [this] is passed explicitly. *)

From Stdlib Require Import String List Bool Arith.
Import ListNotations.
Open Scope string_scope.
Open Scope list_scope.

Set Implicit Arguments.

(** ** Exceptions and the error monad *)

(** The classes of thrown values: [new Error(...)] in the service,
    [new BasicACLException(...)] in the mixin, and whatever class the
    accessors of a foreign entity throw. *)
Inductive ErrorClass : Type :=
| JsError
| BasicACLException
| Foreign (className : string).

Record Exception : Type := mkException {
  exn_class : ErrorClass;
  exn_message : string
}.

Inductive Result (A : Type) : Type :=
| Ok (a : A)
| Throw (e : Exception).

Arguments Ok {A} a.
Arguments Throw {A} e.

Definition bind {A B : Type} (m : Result A) (k : A -> Result B) : Result B :=
  match m with
  | Ok a => k a
  | Throw e => Throw e
  end.

Notation "x <- m ;; k" := (bind m (fun x => k))
  (at level 61, m at next level, right associativity).

(** ** JavaScript helpers *)

(** [Array.prototype.includes] on an array of strings. *)
Definition includes (xs : list string) (x : string) : bool :=
  existsb (fun y => String.eqb y x) xs.

(** [v ?? []] for a value of type [string[] | null]. *)
Definition orEmpty (v : option (list string)) : list string :=
  match v with
  | Some xs => xs
  | None => []
  end.

(** A parameter of type [string | string[]]. *)
Inductive StringOrArray : Type :=
| Str (s : string)
| Arr (xs : list string).

(** [typeof role === "string" ? [role] : role] *)
Definition toArray (role : StringOrArray) : list string :=
  match role with
  | Str s => [s]
  | Arr xs => xs
  end.

(** ** Configuration (the interfaces of IACLService.ts) *)

Module IAclRole.
Record t : Type := make { name : string; scopes : list string }.
End IAclRole.

Module IAclGroup.
Record t : Type := make { name : string; roles : list string }.
End IAclGroup.

Module IAclConfig.
Record t : Type := make {
    defaultGroup : string;
    groups : list IAclGroup.t;
    roles : list IAclRole.t
  }.
End IAclConfig.

(** A parameter of type [string | IAclGroup]. *)
Inductive StringOrGroup : Type :=
| GroupName (s : string)
| GroupValue (g : IAclGroup.t).

(** The entity contract [IAccessControlEntity], over the state [S] of the
    object behind it.  The accessors are foreign code: each may throw. *)
Module IAccessControlEntity.
Record t (S : Type) : Type := make {
  getAclRoles : S -> Result (option (list string));
  setAclRoles : list string -> S -> Result S;
  getAclGroups : S -> Result (option (list string));
  setAclGroups : list string -> S -> Result S
}.
End IAccessControlEntity.

(** ** The service: class [BasicACLService]

    The six mutators are [async]: an exception inside one rejects the
    promise it returns, which is modelled as [Throw] like any other raise. *)

Module BasicACLService.

Record t : Type := make { aclConfig : IAclConfig.t }.

(** The methods the class declares, in source order. *)
Definition operations : list string :=
  [ "getConfig"; "getRoleScopesFromUser"; "getRole"; "getRoleScopes";
    "assignRoleToUser"; "appendRoleToUser"; "removeRoleFromUser";
    "getDefaultGroup"; "getGroup"; "getGroupRoles"; "getGroupScopes";
    "assignGroupToUser"; "appendGroupToUser"; "removeGroupFromUser" ].

Definition getConfig (this : t) : IAclConfig.t := aclConfig this.

Definition getRole (this : t) (role : string) : Result IAclRole.t :=
  match find (fun r => String.eqb (IAclRole.name r) role)
             (IAclConfig.roles (aclConfig this)) with
  | Some result => Ok result
  | None => Throw (mkException JsError ("Role " ++ role ++ " not found")%string)
  end.

(** The loop [for (const roleStr of rolesArray) { ... scopes = [...scopes,
    ...role.scopes] }], with the variable [scopes] as accumulator. *)
Fixpoint collectScopes (this : t) (scopes : list string)
         (rolesArray : list string) : Result (list string) :=
  match rolesArray with
  | [] => Ok scopes
  | roleStr :: rest =>
      role <- getRole this roleStr ;;
      collectScopes this (scopes ++ IAclRole.scopes role) rest
  end.

Definition getRoleScopes (this : t) (role : StringOrArray)
  : Result (list string) :=
  collectScopes this [] (toArray role).

Definition getGroup (this : t) (group : string) : Result IAclGroup.t :=
  match find (fun g => String.eqb (IAclGroup.name g) group)
             (IAclConfig.groups (aclConfig this)) with
  | Some result => Ok result
  | None => Throw (mkException JsError ("Group " ++ group ++ " not found")%string)
  end.

Definition getDefaultGroup (this : t) : Result IAclGroup.t :=
  getGroup this (IAclConfig.defaultGroup (aclConfig this)).

(** [names.map((role) => this.getRole(role))]: the first failing lookup
    aborts the map. *)
Fixpoint mapGetRole (this : t) (names : list string)
  : Result (list IAclRole.t) :=
  match names with
  | [] => Ok []
  | role :: rest =>
      r <- getRole this role ;;
      rs <- mapGetRole this rest ;;
      Ok (r :: rs)
  end.

Definition getGroupRoles (this : t) (group : StringOrGroup)
  : Result (list IAclRole.t) :=
  groupResult <- match group with
                 | GroupName s => getGroup this s
                 | GroupValue g => Ok g
                 end ;;
  mapGetRole this (IAclGroup.roles groupResult).

Definition getGroupScopes (this : t) (group : StringOrGroup)
  : Result (list string) :=
  roles <- getGroupRoles this group ;;
  Ok (concat (map IAclRole.scopes roles)).

Section WithEntity.
Variable S : Type.
Variable data : IAccessControlEntity.t S.

Definition getRoleScopesFromUser (this : t) (st : S)
  : Result (list string) :=
  roles <- IAccessControlEntity.getAclRoles data st ;;
  match roles with
  | None => Ok []
  | Some roles => collectScopes this [] roles
  end.

Definition assignRoleToUser (this : t) (st : S) (role : StringOrArray)
  : Result S :=
  let rolesArray := toArray role in
  IAccessControlEntity.setAclRoles data rolesArray st.

Definition appendRoleToUser (this : t) (st : S) (role : string)
  : Result S :=
  got <- IAccessControlEntity.getAclRoles data st ;;
  let currentRoles := orEmpty got in
  let newRoles := currentRoles ++ [role] in
  IAccessControlEntity.setAclRoles data newRoles st.

Definition removeRoleFromUser (this : t) (st : S) (role : StringOrArray)
  : Result S :=
  let rolesArray := toArray role in
  got <- IAccessControlEntity.getAclRoles data st ;;
  let currentRoles := orEmpty got in
  let newRoles :=
    filter (fun r => Bool.eqb false (includes rolesArray r)) currentRoles in
  IAccessControlEntity.setAclRoles data newRoles st.

Definition assignGroupToUser (this : t) (st : S) (group : StringOrArray)
  : Result S :=
  let groupsArray := toArray group in
  IAccessControlEntity.setAclGroups data groupsArray st.

Definition appendGroupToUser (this : t) (st : S) (group : string)
  : Result S :=
  got <- IAccessControlEntity.getAclGroups data st ;;
  let currentGroups := orEmpty got in
  let newGroups := currentGroups ++ [group] in
  IAccessControlEntity.setAclGroups data newGroups st.

Definition removeGroupFromUser (this : t) (st : S) (group : StringOrArray)
  : Result S :=
  let groupsArray := toArray group in
  got <- IAccessControlEntity.getAclGroups data st ;;
  let currentGroups := orEmpty got in
  let newGroups :=
    filter (fun g => Bool.eqb false (includes groupsArray g)) currentGroups in
  IAccessControlEntity.setAclGroups data newGroups st.
End WithEntity.

End BasicACLService.


(** ** The mixin: the class returned by [ComposableACL(aclConfig)(BaseClass)]

    The class closes over [aclConfig] and keeps the two lists in its own
    fields, so each method takes the configuration and [this].  Its own
    accessors cannot throw, and the mutators return the updated object. *)

Module ComposableACL.

Record t : Type := make { _aclRoles : list string; _aclGroups : list string }.

(** Field initialisers: [_aclRoles = []], [_aclGroups = []]. *)
Definition new : t := make [] [].

(** The methods the class declares, in source order. *)
Definition operations : list string :=
  [ "getAclRoles"; "setAclRoles"; "getAclGroups"; "setAclGroups";
    "getConfig"; "getDefaultGroup"; "getGroup"; "getRole";
    "hasScope"; "hasScopes"; "hasRole"; "hasGroup";
    "getRoleScopesFromUser"; "getRoleScopes"; "getGroupRoles";
    "getGroupScopes";
    "assignRoleToUser"; "appendRoleToUser"; "removeRoleFromUser";
    "assignGroupToUser"; "appendGroupToUser"; "removeGroupFromUser" ].

Definition getAclRoles (this : t) : option (list string) :=
  if (0 <? length (_aclRoles this))%nat then Some (_aclRoles this) else None.

Definition setAclRoles (this : t) (roles : list string) : t :=
  make roles (_aclGroups this).

Definition getAclGroups (this : t) : option (list string) :=
  if (0 <? length (_aclGroups this))%nat then Some (_aclGroups this) else None.

Definition setAclGroups (this : t) (groups : list string) : t :=
  make (_aclRoles this) groups.

Definition getConfig (aclConfig : IAclConfig.t) (this : t) : IAclConfig.t :=
  aclConfig.

Definition getGroup (aclConfig : IAclConfig.t) (this : t) (group : string)
  : Result IAclGroup.t :=
  match find (fun g => String.eqb (IAclGroup.name g) group)
             (IAclConfig.groups aclConfig) with
  | Some result => Ok result
  | None =>
      Throw (mkException BasicACLException
                         ("Group " ++ group ++ " not found")%string)
  end.

Definition getDefaultGroup (aclConfig : IAclConfig.t) (this : t)
  : Result IAclGroup.t :=
  getGroup aclConfig this (IAclConfig.defaultGroup aclConfig).

Definition getRole (aclConfig : IAclConfig.t) (this : t) (role : string)
  : Result IAclRole.t :=
  match find (fun r => String.eqb (IAclRole.name r) role)
             (IAclConfig.roles aclConfig) with
  | Some result => Ok result
  | None =>
      Throw (mkException BasicACLException
                         ("Role " ++ role ++ " not found")%string)
  end.

(** [for (const roleName of roles) { const role = this.getRole(roleName);
    if (role.scopes.includes(scope)) return true; } return false;] *)
Fixpoint hasScopeLoop (aclConfig : IAclConfig.t) (this : t)
         (roles : list string) (scope : string) : Result bool :=
  match roles with
  | [] => Ok false
  | roleName :: rest =>
      role <- getRole aclConfig this roleName ;;
      if includes (IAclRole.scopes role) scope then Ok true
      else hasScopeLoop aclConfig this rest scope
  end.

Definition hasScope (aclConfig : IAclConfig.t) (this : t) (scope : string)
  : Result bool :=
  let roles := orEmpty (getAclRoles this) in
  hasScopeLoop aclConfig this roles scope.

(** [for (const scope of scopes) { if (!this.hasScope(scope)) return false; }
    return true;] *)
Fixpoint hasScopes (aclConfig : IAclConfig.t) (this : t)
         (scopes : list string) : Result bool :=
  match scopes with
  | [] => Ok true
  | scope :: rest =>
      has <- hasScope aclConfig this scope ;;
      if negb has then Ok false else hasScopes aclConfig this rest
  end.

(** [for (const required of wanted) { if (!assigned.includes(required))
    return false; } return true;], the loop of [hasRole] and [hasGroup]. *)
Fixpoint allIncluded (assigned : list string) (wanted : list string) : bool :=
  match wanted with
  | [] => true
  | required :: rest =>
      if negb (includes assigned required) then false
      else allIncluded assigned rest
  end.

Definition hasRole (aclConfig : IAclConfig.t) (this : t)
           (role : StringOrArray) : bool :=
  let rolesArray := toArray role in
  let userRoles := orEmpty (getAclRoles this) in
  allIncluded userRoles rolesArray.

Definition hasGroup (aclConfig : IAclConfig.t) (this : t)
           (groups : StringOrArray) : bool :=
  let groups := toArray groups in
  let foundGroups := orEmpty (getAclGroups this) in
  allIncluded foundGroups groups.

Fixpoint collectScopes (aclConfig : IAclConfig.t) (this : t)
         (scopes : list string) (rolesArray : list string)
  : Result (list string) :=
  match rolesArray with
  | [] => Ok scopes
  | roleStr :: rest =>
      role <- getRole aclConfig this roleStr ;;
      collectScopes aclConfig this (scopes ++ IAclRole.scopes role) rest
  end.

Definition getRoleScopesFromUser (aclConfig : IAclConfig.t) (this : t)
  : Result (list string) :=
  match getAclRoles this with
  | None => Ok []
  | Some roles => collectScopes aclConfig this [] roles
  end.

Definition getRoleScopes (aclConfig : IAclConfig.t) (this : t)
           (role : StringOrArray) : Result (list string) :=
  collectScopes aclConfig this [] (toArray role).

Fixpoint mapGetRole (aclConfig : IAclConfig.t) (this : t)
         (names : list string) : Result (list IAclRole.t) :=
  match names with
  | [] => Ok []
  | role :: rest =>
      r <- getRole aclConfig this role ;;
      rs <- mapGetRole aclConfig this rest ;;
      Ok (r :: rs)
  end.

Definition getGroupRoles (aclConfig : IAclConfig.t) (this : t)
           (group : StringOrGroup) : Result (list IAclRole.t) :=
  groupResult <- match group with
                 | GroupName s => getGroup aclConfig this s
                 | GroupValue g => Ok g
                 end ;;
  mapGetRole aclConfig this (IAclGroup.roles groupResult).

Definition getGroupScopes (aclConfig : IAclConfig.t) (this : t)
           (group : StringOrGroup) : Result (list string) :=
  roles <- getGroupRoles aclConfig this group ;;
  Ok (concat (map IAclRole.scopes roles)).

Definition assignRoleToUser (aclConfig : IAclConfig.t) (this : t)
           (role : StringOrArray) : t :=
  let rolesArray := toArray role in
  setAclRoles this rolesArray.

Definition appendRoleToUser (aclConfig : IAclConfig.t) (this : t)
           (role : string) : t :=
  let currentRoles := orEmpty (getAclRoles this) in
  let newRoles := currentRoles ++ [role] in
  setAclRoles this newRoles.

Definition removeRoleFromUser (aclConfig : IAclConfig.t) (this : t)
           (role : StringOrArray) : t :=
  let rolesArray := toArray role in
  let currentRoles := orEmpty (getAclRoles this) in
  let newRoles :=
    filter (fun r => Bool.eqb false (includes rolesArray r)) currentRoles in
  setAclRoles this newRoles.

Definition assignGroupToUser (aclConfig : IAclConfig.t) (this : t)
           (group : StringOrArray) : t :=
  let groupsArray := toArray group in
  setAclGroups this groupsArray.

Definition appendGroupToUser (aclConfig : IAclConfig.t) (this : t)
           (group : string) : t :=
  let currentGroups := orEmpty (getAclGroups this) in
  let newGroups := currentGroups ++ [group] in
  setAclGroups this newGroups.

Definition removeGroupFromUser (aclConfig : IAclConfig.t) (this : t)
           (group : StringOrArray) : t :=
  let groupsArray := toArray group in
  let currentGroups := orEmpty (getAclGroups this) in
  let newGroups :=
    filter (fun g => Bool.eqb false (includes groupsArray g)) currentGroups in
  setAclGroups this newGroups.

(** The class [implements IAccessControlEntity]: the mixin object seen
    through the entity contract. *)
Definition asEntity : IAccessControlEntity.t t :=
  IAccessControlEntity.make
    (fun this => Ok (getAclRoles this))
    (fun roles this => Ok (setAclRoles this roles))
    (fun this => Ok (getAclGroups this))
    (fun groups this => Ok (setAclGroups this groups)).

End ComposableACL.

(** ** The configuration of the README and of the spec's end-to-end example *)

Definition exampleConfig : IAclConfig.t :=
  IAclConfig.make "user"
    [ IAclGroup.make "admin" ["role_admin"];
      IAclGroup.make "user" ["role_user"] ]
    [ IAclRole.make "role_admin" ["read:all"; "write:all"; "delete:all"];
      IAclRole.make "role_user" ["read:own"; "write:own"] ].

(** ** Vocabulary of the specification *)

(** [role] is the first entry of [roles], in declaration order, whose name
    is [r]. *)
Definition firstNamed (roles : list IAclRole.t) (r : string)
           (role : IAclRole.t) : Prop :=
  exists pre post,
    roles = pre ++ role :: post /\
    IAclRole.name role = r /\
    forall p, In p pre -> IAclRole.name p <> r.

(** The name [r] appears in the configured role sequence. *)
Definition configuredRole (aclConfig : IAclConfig.t) (r : string) : Prop :=
  In r (map IAclRole.name (IAclConfig.roles aclConfig)).

(** The NotFound error of a role lookup, as each class raises it. *)
Definition roleNotFound (cls : ErrorClass) (r : string) : Exception :=
  mkException cls ("Role " ++ r ++ " not found")%string.

(** The role names assigned to the mixin object, as its methods read them:
    [this.getAclRoles() ?? []]. *)
Definition assignedRoles (this : ComposableACL.t) : list string :=
  orEmpty (ComposableACL.getAclRoles this).

Definition assignedGroups (this : ComposableACL.t) : list string :=
  orEmpty (ComposableACL.getAclGroups this).

(** Some assigned role name resolves to a role whose scopes contain
    [scope]. *)
Definition someAssignedRoleGrants (aclConfig : IAclConfig.t)
           (this : ComposableACL.t) (scope : string) : Prop :=
  exists r role,
    In r (assignedRoles this) /\
    ComposableACL.getRole aclConfig this r = Ok role /\
    In scope (IAclRole.scopes role).

(** The name [p] resolves, to a role whose scopes do not contain [scope]. *)
Definition resolvesWithout (aclConfig : IAclConfig.t)
           (this : ComposableACL.t) (scope : string) (p : string) : Prop :=
  exists role,
    ComposableACL.getRole aclConfig this p = Ok role /\
    ~ In scope (IAclRole.scopes role).

(** Scanning [names] in order, a name is reached that resolves to a role
    granting [scope]; what follows it is not looked at. *)
Definition firstGrant (aclConfig : IAclConfig.t) (this : ComposableACL.t)
           (scope : string) (names : list string) : Prop :=
  exists pre r post role,
    names = pre ++ r :: post /\
    (forall p, In p pre -> resolvesWithout aclConfig this scope p) /\
    ComposableACL.getRole aclConfig this r = Ok role /\
    In scope (IAclRole.scopes role).

(** Scanning [names] in order, a name that does not resolve is reached
    before any grant, and its lookup raises [e]. *)
Definition failsBeforeGrant (aclConfig : IAclConfig.t)
           (this : ComposableACL.t) (scope : string) (names : list string)
           (e : Exception) : Prop :=
  exists pre r post,
    names = pre ++ r :: post /\
    (forall p, In p pre -> resolvesWithout aclConfig this scope p) /\
    ComposableACL.getRole aclConfig this r = Throw e.

(** An object whose first assigned role name is not configured. *)
Definition ghostThenUser : ComposableACL.t :=
  ComposableACL.make ["ghost"; "role_user"] [].

(** Conjunction of checks from left to right, stopping at the first check
    that is false; a check that raises before that point raises. *)
Fixpoint andThen (checks : list (Result bool)) : Result bool :=
  match checks with
  | [] => Ok true
  | Ok true :: rest => andThen rest
  | Ok false :: _ => Ok false
  | Throw e :: _ => Throw e
  end.

(** The role names of an entity as the service reads them:
    [data.getAclRoles() ?? []]. *)
Definition currentRoles (S : Type) (data : IAccessControlEntity.t S)
           (st : S) : Result (list string) :=
  got <- IAccessControlEntity.getAclRoles data st ;; Ok (orEmpty got).

(** The entity contract for the role setter, "replace role-name list": what
    was written is what is read next. *)
Definition replacesRoles (S : Type) (data : IAccessControlEntity.t S)
  : Prop :=
  forall roles st st',
    IAccessControlEntity.setAclRoles data roles st = Ok st' ->
    currentRoles data st' = Ok roles.

(** The predicate of the filter in [removeRoleFromUser] and
    [removeGroupFromUser]: [(r) => false === names.includes(r)]. *)
Definition notListed (names : list string) (r : string) : bool :=
  Bool.eqb false (includes names r).

(** [xs] is obtained from [ys] by dropping elements, the rest keeping their
    relative order. *)
Inductive Subseq (A : Type) : list A -> list A -> Prop :=
| Subseq_nil : Subseq [] []
| Subseq_drop : forall y xs ys, Subseq xs ys -> Subseq xs (y :: ys)
| Subseq_keep : forall x xs ys, Subseq xs ys -> Subseq (x :: xs) (x :: ys).

(** One of the entity's four accessors raises [e] on the state [st]. *)
Definition accessorRaises (S : Type) (data : IAccessControlEntity.t S)
           (st : S) (e : Exception) : Prop :=
  IAccessControlEntity.getAclRoles data st = Throw e \/
  IAccessControlEntity.getAclGroups data st = Throw e \/
  (exists names, IAccessControlEntity.setAclRoles data names st = Throw e) \/
  (exists names, IAccessControlEntity.setAclGroups data names st = Throw e).

(** None of the entity's accessors ever raises. *)
Definition accessorsReturn (S : Type) (data : IAccessControlEntity.t S)
  : Prop :=
  (forall st, exists v, IAccessControlEntity.getAclRoles data st = Ok v) /\
  (forall st, exists v, IAccessControlEntity.getAclGroups data st = Ok v) /\
  (forall names st,
      exists st', IAccessControlEntity.setAclRoles data names st = Ok st') /\
  (forall names st,
      exists st', IAccessControlEntity.setAclGroups data names st = Ok st').

(** The outcome [r] of a mutation started on [st] fails only through the
    entity: an error it raises is the very error an accessor raised on
    [st], and with accessors that return it returns. *)
Definition failsOnlyThroughEntity (S : Type)
           (data : IAccessControlEntity.t S) (st : S) (r : Result S)
  : Prop :=
  (forall e, r = Throw e -> accessorRaises data st e) /\
  (accessorsReturn data -> exists st', r = Ok st').

(** The service's view of an outcome of the mixin: the same, raised as a
    plain [Error]. *)
Definition asServiceOutcome (A : Type) (mixin : Result A) : Result A :=
  match mixin with
  | Ok a => Ok a
  | Throw e => Throw (mkException JsError (exn_message e))
  end.

(** Some name of [names] resolves to a role granting [scope], and every
    name before it in [names] is a configured role. *)
Definition grantAfterConfigured (aclConfig : IAclConfig.t)
           (this : ComposableACL.t) (scope : string) (names : list string)
  : Prop :=
  exists pre r post role,
    names = pre ++ r :: post /\
    (forall p, In p pre -> configuredRole aclConfig p) /\
    ComposableACL.getRole aclConfig this r = Ok role /\
    In scope (IAclRole.scopes role).

(** [group] is the first entry of [groups], in declaration order, whose
    name is [g]. *)
Definition firstNamedGroup (groups : list IAclGroup.t) (g : string)
           (group : IAclGroup.t) : Prop :=
  exists pre post,
    groups = pre ++ group :: post /\
    IAclGroup.name group = g /\
    forall p, In p pre -> IAclGroup.name p <> g.

(** The name [g] appears in the configured group sequence. *)
Definition configuredGroup (aclConfig : IAclConfig.t) (g : string) : Prop :=
  In g (map IAclGroup.name (IAclConfig.groups aclConfig)).

(** The NotFound error of a group lookup, as each class raises it. *)
Definition groupNotFound (cls : ErrorClass) (g : string) : Exception :=
  mkException cls ("Group " ++ g ++ " not found")%string.

(** [r] is the first name of [names] that is not a configured role. *)
Definition firstUnconfigured (aclConfig : IAclConfig.t)
           (names : list string) (r : string) : Prop :=
  exists pre post,
    names = pre ++ r :: post /\
    (forall p, In p pre -> configuredRole aclConfig p) /\
    ~ configuredRole aclConfig r.

(** [roles] are the roles the names resolve to, one by one and in order. *)
Definition resolveAll (aclConfig : IAclConfig.t) (names : list string)
           (roles : list IAclRole.t) : Prop :=
  Forall2 (firstNamed (IAclConfig.roles aclConfig)) names roles.

(** The group names of an entity as the service reads them:
    [data.getAclGroups() ?? []]. *)
Definition currentGroups (S : Type) (data : IAccessControlEntity.t S)
           (st : S) : Result (list string) :=
  got <- IAccessControlEntity.getAclGroups data st ;; Ok (orEmpty got).

(** The entity contract for the group setter: what was written is what is
    read next. *)
Definition replacesGroups (S : Type) (data : IAccessControlEntity.t S)
  : Prop :=
  forall groups st st',
    IAccessControlEntity.setAclGroups data groups st = Ok st' ->
    currentGroups data st' = Ok groups.

(** The outcome [r] of a mutation that reads a list with [read], computes
    [update] of it (null read as empty) and hands the result to [write]:
    an error of the getter is the outcome, and otherwise the outcome is
    whatever the setter does with the updated list, value or error. *)
Definition readsThenWrites (S : Type)
           (read : S -> Result (option (list string)))
           (write : list string -> S -> Result S)
           (update : list string -> list string) (st : S) (r : Result S)
  : Prop :=
  (forall e, read st = Throw e -> r = Throw e) /\
  (forall got, read st = Ok got -> r = write (update (orEmpty got)) st).

(** An entity whose getters raise [e]; its setters store nothing. *)
Definition unreadableEntity (e : Exception) : IAccessControlEntity.t unit :=
  IAccessControlEntity.make
    (fun _ => Throw e) (fun _ st => Ok st)
    (fun _ => Throw e) (fun _ st => Ok st).

(** An entity that reads as empty and whose setters raise [e]. *)
Definition unwritableEntity (e : Exception) : IAccessControlEntity.t unit :=
  IAccessControlEntity.make
    (fun _ => Ok None) (fun _ _ => Throw e)
    (fun _ => Ok None) (fun _ _ => Throw e).

(** Two outcomes agree up to the class of a raised error: the same value,
    or errors with the same message. *)
Definition sameUpToErrorClass (A : Type) (x y : Result A) : Prop :=
  match x, y with
  | Ok a, Ok b => a = b
  | Throw e, Throw e' => exn_message e = exn_message e'
  | _, _ => False
  end.

(** The entity of the README's quick start: roles ["role_user"], groups
    ["user"]. *)
Definition readmeUser : ComposableACL.t :=
  ComposableACL.make ["role_user"] ["user"].

(** * Theorems *)

(** ** Lists and lookups *)

Lemma includes_In (xs : list string) (x : string) :
  includes xs x = true <-> In x xs.
Proof.
  unfold includes. rewrite existsb_exists. split.
  - intros [y [Hy Heq]]. apply String.eqb_eq in Heq. now subst.
  - intros H. exists x. split; [assumption | apply String.eqb_refl].
Qed.

Lemma includes_not_In (xs : list string) (x : string) :
  includes xs x = false <-> ~ In x xs.
Proof.
  rewrite <- includes_In. destruct (includes xs x); split; intro H;
    try reflexivity; try discriminate; try (now intros ?).
  now elim H.
Qed.

Lemma find_first_split (A : Type) (f : A -> bool) (l : list A) (x : A) :
  find f l = Some x <->
  exists pre post,
    l = pre ++ x :: post /\ f x = true /\ forall p, In p pre -> f p = false.
Proof.
  induction l as [| a l IH]; simpl.
  - split; [discriminate |].
    intros (pre & post & H & _). destruct pre; discriminate.
  - destruct (f a) eqn:Efa.
    + split.
      * intros H. injection H as ->. exists [], l. simpl. auto.
        repeat split; auto. intros p [].
      * intros (pre & post & H & Hx & Hpre). destruct pre as [| b pre].
        -- simpl in H. now injection H as ->.
        -- simpl in H. injection H as -> _.
           rewrite (Hpre b (or_introl eq_refl)) in Efa. discriminate.
    + rewrite IH. split.
      * intros (pre & post & -> & Hx & Hpre). exists (a :: pre), post.
        repeat split; auto. intros p [<- | Hp]; auto.
      * intros (pre & post & H & Hx & Hpre). destruct pre as [| b pre].
        -- simpl in H. injection H as -> _. congruence.
        -- simpl in H. injection H as -> ->. exists pre, post.
           repeat split; auto. intros p Hp. apply Hpre. now right.
Qed.

Lemma find_none_names (roles : list IAclRole.t) (r : string) :
  find (fun x => String.eqb (IAclRole.name x) r) roles = None <->
  ~ In r (map IAclRole.name roles).
Proof.
  induction roles as [| a roles IH]; simpl.
  - split; auto.
  - destruct (String.eqb_spec (IAclRole.name a) r) as [E | E].
    + split; [discriminate | intros H; elim H; now left].
    + rewrite IH. split; [intros H [H1 | H1]; auto | intros H H1; auto].
Qed.

Lemma find_role_firstNamed (roles : list IAclRole.t) (r : string)
      (role : IAclRole.t) :
  find (fun x => String.eqb (IAclRole.name x) r) roles = Some role <->
  firstNamed roles r role.
Proof.
  rewrite find_first_split. unfold firstNamed.
  split; intros (pre & post & H & Hx & Hpre); exists pre, post;
    repeat split; auto.
  - now apply String.eqb_eq.
  - intros p Hp. apply String.eqb_neq. auto.
  - now apply String.eqb_eq.
  - intros p Hp. apply String.eqb_neq. auto.
Qed.

Lemma service_getRole_Ok (this : BasicACLService.t) (r : string)
      (role : IAclRole.t) :
  BasicACLService.getRole this r = Ok role <->
  firstNamed (IAclConfig.roles (BasicACLService.aclConfig this)) r role.
Proof.
  rewrite <- find_role_firstNamed. unfold BasicACLService.getRole.
  destruct (find _ _); split; intros H; try discriminate; congruence.
Qed.

Lemma mixin_getRole_Ok (aclConfig : IAclConfig.t) (this : ComposableACL.t)
      (r : string) (role : IAclRole.t) :
  ComposableACL.getRole aclConfig this r = Ok role <->
  firstNamed (IAclConfig.roles aclConfig) r role.
Proof.
  rewrite <- find_role_firstNamed. unfold ComposableACL.getRole.
  destruct (find _ _); split; intros H; try discriminate; congruence.
Qed.

Lemma service_getRole_Throw (this : BasicACLService.t) (r : string)
      (e : Exception) :
  BasicACLService.getRole this r = Throw e <->
  ~ configuredRole (BasicACLService.aclConfig this) r /\
  e = roleNotFound JsError r.
Proof.
  unfold configuredRole. rewrite <- find_none_names.
  unfold BasicACLService.getRole, roleNotFound.
  destruct (find _ _); split.
  - discriminate.
  - intros [H _]. discriminate.
  - intros H. injection H as <-. auto.
  - intros [_ ->]. reflexivity.
Qed.

Lemma mixin_getRole_Throw (aclConfig : IAclConfig.t) (this : ComposableACL.t)
      (r : string) (e : Exception) :
  ComposableACL.getRole aclConfig this r = Throw e <->
  ~ configuredRole aclConfig r /\ e = roleNotFound BasicACLException r.
Proof.
  unfold configuredRole. rewrite <- find_none_names.
  unfold ComposableACL.getRole, roleNotFound.
  destruct (find _ _); split.
  - discriminate.
  - intros [H _]. discriminate.
  - intros H. injection H as <-. auto.
  - intros [_ ->]. reflexivity.
Qed.

Lemma configured_has_first (roles : list IAclRole.t) (r : string) :
  In r (map IAclRole.name roles) -> exists role, firstNamed roles r role.
Proof.
  intros H.
  destruct (find (fun x => String.eqb (IAclRole.name x) r) roles) eqn:E.
  - exists t. now apply find_role_firstNamed.
  - apply find_none_names in E. contradiction.
Qed.

Lemma firstNamed_configured (roles : list IAclRole.t) (r : string)
      (role : IAclRole.t) :
  firstNamed roles r role -> In r (map IAclRole.name roles).
Proof.
  intros (pre & post & -> & <- & _). rewrite map_app, in_app_iff.
  right. now left.
Qed.

(** ** Role lookup *)

(** C3. For a name that appears in the configured role sequence, [getRole]
    returns the first configured role of that name, in both classes; for a
    name that does not appear it raises the class's "Role ... not found"
    error; and it raises in no other case. *)
Theorem C3_getRole_first_or_not_found
        (aclConfig : IAclConfig.t) (this : ComposableACL.t) (r : string) :
  (forall role,
      BasicACLService.getRole (BasicACLService.make aclConfig) r = Ok role <->
      firstNamed (IAclConfig.roles aclConfig) r role) /\
  (forall role,
      ComposableACL.getRole aclConfig this r = Ok role <->
      firstNamed (IAclConfig.roles aclConfig) r role) /\
  (configuredRole aclConfig r <->
   exists role,
     firstNamed (IAclConfig.roles aclConfig) r role /\
     BasicACLService.getRole (BasicACLService.make aclConfig) r = Ok role /\
     ComposableACL.getRole aclConfig this r = Ok role) /\
  (~ configuredRole aclConfig r <->
   BasicACLService.getRole (BasicACLService.make aclConfig) r
     = Throw (roleNotFound JsError r)) /\
  (~ configuredRole aclConfig r <->
   ComposableACL.getRole aclConfig this r
     = Throw (roleNotFound BasicACLException r)) /\
  (forall e,
      BasicACLService.getRole (BasicACLService.make aclConfig) r = Throw e ->
      ~ configuredRole aclConfig r /\ e = roleNotFound JsError r) /\
  (forall e,
      ComposableACL.getRole aclConfig this r = Throw e ->
      ~ configuredRole aclConfig r /\ e = roleNotFound BasicACLException r).
Proof.
  pose proof (service_getRole_Ok (BasicACLService.make aclConfig) r) as HS.
  pose proof (mixin_getRole_Ok aclConfig this r) as HM.
  pose proof (service_getRole_Throw (BasicACLService.make aclConfig) r) as TS.
  pose proof (mixin_getRole_Throw aclConfig this r) as TM.
  simpl in HS, TS.
  split; [exact HS |]. split; [exact HM |].
  split.
  { split.
    - intros H. destruct (configured_has_first _ _ H) as [role Hrole].
      exists role. repeat split; auto.
      + now apply HS.
      + now apply HM.
    - intros (role & H & _). eapply firstNamed_configured; eauto. }
  split.
  { split; intros H.
    - apply TS. auto.
    - apply TS in H. tauto. }
  split.
  { split; intros H.
    - apply TM. auto.
    - apply TM in H. tauto. }
  split; intros e H.
  - now apply TS.
  - now apply TM.
Qed.

(** ** Scope checks *)

Lemma assignedRoles_stored (this : ComposableACL.t) :
  assignedRoles this = ComposableACL._aclRoles this.
Proof.
  unfold assignedRoles, ComposableACL.getAclRoles.
  destruct (ComposableACL._aclRoles this); reflexivity.
Qed.

Lemma assignedGroups_stored (this : ComposableACL.t) :
  assignedGroups this = ComposableACL._aclGroups this.
Proof.
  unfold assignedGroups, ComposableACL.getAclGroups.
  destruct (ComposableACL._aclGroups this); reflexivity.
Qed.

Section HasScopeLoop.
Variable aclConfig : IAclConfig.t.
Variable this : ComposableACL.t.
Variable scope : string.

Let loop := ComposableACL.hasScopeLoop aclConfig this.
Let getRole := ComposableACL.getRole aclConfig this.

Lemma hasScopeLoop_step_grant (r : string) (rest : list string)
      (role : IAclRole.t) :
  getRole r = Ok role -> In scope (IAclRole.scopes role) ->
  loop (r :: rest) scope = Ok true.
Proof.
  intros Hr Hin. unfold loop, getRole in *. simpl. rewrite Hr. simpl.
  apply includes_In in Hin. now rewrite Hin.
Qed.

Lemma hasScopeLoop_step_skip (r : string) (rest : list string) :
  resolvesWithout aclConfig this scope r ->
  loop (r :: rest) scope = loop rest scope.
Proof.
  intros (role & Hr & Hnot). unfold loop. simpl. rewrite Hr. simpl.
  apply includes_not_In in Hnot. now rewrite Hnot.
Qed.

Lemma hasScopeLoop_step_throw (r : string) (rest : list string)
      (e : Exception) :
  getRole r = Throw e -> loop (r :: rest) scope = Throw e.
Proof.
  intros Hr. unfold loop, getRole in *. simpl. now rewrite Hr.
Qed.

(** Every name either resolves to a granting role, resolves to a role
    without the scope, or fails to resolve. *)
Lemma name_cases (r : string) :
  (exists role, getRole r = Ok role /\ In scope (IAclRole.scopes role)) \/
  resolvesWithout aclConfig this scope r \/
  (exists e, getRole r = Throw e).
Proof.
  unfold resolvesWithout. fold getRole.
  destruct (getRole r) as [role | e] eqn:E.
  - destruct (includes (IAclRole.scopes role) scope) eqn:I.
    + left. exists role. split; auto. now apply includes_In.
    + right. left. exists role. split; auto. now apply includes_not_In.
  - right. right. now exists e.
Qed.

Lemma resolvesWithout_excl_grant (r : string) (role : IAclRole.t) :
  resolvesWithout aclConfig this scope r -> getRole r = Ok role ->
  ~ In scope (IAclRole.scopes role).
Proof.
  intros (role' & H1 & H2) H. unfold getRole in H. congruence.
Qed.

Lemma resolvesWithout_excl_throw (r : string) (e : Exception) :
  resolvesWithout aclConfig this scope r -> getRole r = Throw e -> False.
Proof.
  intros (role' & H1 & H2) H. unfold getRole in H. congruence.
Qed.

Lemma hasScopeLoop_true (names : list string) :
  loop names scope = Ok true <-> firstGrant aclConfig this scope names.
Proof.
  induction names as [| r rest IH].
  - split; [discriminate |].
    intros (pre & r & post & role & H & _). destruct pre; discriminate.
  - destruct (name_cases r) as [(role & Hr & Hin) | [Hskip | (e & He)]].
    + rewrite (@hasScopeLoop_step_grant r rest role Hr Hin).
      split; auto. intros _. exists [], r, rest, role.
      repeat split; auto. intros p [].
    + rewrite (@hasScopeLoop_step_skip r rest Hskip), IH. split.
      * intros (pre & r' & post & role & -> & Hpre & Hr' & Hin).
        exists (r :: pre), r', post, role. repeat split; auto.
        intros p [<- | Hp]; auto.
      * intros (pre & r' & post & role & H & Hpre & Hr' & Hin).
        destruct pre as [| p pre]; simpl in H; injection H as -> ->.
        -- elim (@resolvesWithout_excl_grant _ _ Hskip Hr' Hin).
        -- exists pre, r', post, role. repeat split; auto.
           intros q Hq. apply Hpre. now right.
    + rewrite (@hasScopeLoop_step_throw r rest _ He). split; [discriminate |].
      intros (pre & r' & post & role & H & Hpre & Hr' & Hin).
      destruct pre as [| p pre]; simpl in H; injection H as -> ->.
      * unfold getRole in He. congruence.
      * elim (@resolvesWithout_excl_throw _ _ (Hpre _ (or_introl eq_refl)) He).
Qed.

Lemma hasScopeLoop_false (names : list string) :
  loop names scope = Ok false <->
  forall p, In p names -> resolvesWithout aclConfig this scope p.
Proof.
  induction names as [| r rest IH].
  - split; [intros _ p [] | reflexivity].
  - destruct (name_cases r) as [(role & Hr & Hin) | [Hskip | (e & He)]].
    + rewrite (@hasScopeLoop_step_grant r rest role Hr Hin).
      split; [discriminate |]. intros H.
      elim (@resolvesWithout_excl_grant _ _ (H r (or_introl eq_refl)) Hr Hin).
    + rewrite (@hasScopeLoop_step_skip r rest Hskip), IH. split.
      * intros H p [<- | Hp]; auto.
      * intros H p Hp. apply H. now right.
    + rewrite (@hasScopeLoop_step_throw r rest _ He). split; [discriminate |].
      intros H.
      elim (@resolvesWithout_excl_throw _ _ (H r (or_introl eq_refl)) He).
Qed.

Lemma hasScopeLoop_throw (names : list string) (e : Exception) :
  loop names scope = Throw e <->
  failsBeforeGrant aclConfig this scope names e.
Proof.
  induction names as [| r rest IH].
  - split; [discriminate |].
    intros (pre & r & post & H & _). destruct pre; discriminate.
  - destruct (name_cases r) as [(role & Hr & Hin) | [Hskip | (e' & He)]].
    + rewrite (@hasScopeLoop_step_grant r rest role Hr Hin).
      split; [discriminate |].
      intros (pre & r' & post & H & Hpre & Hr').
      destruct pre as [| p pre]; simpl in H; injection H as -> ->.
      * unfold getRole in Hr. congruence.
      * elim (@resolvesWithout_excl_grant _ _ (Hpre _ (or_introl eq_refl)) Hr Hin).
    + rewrite (@hasScopeLoop_step_skip r rest Hskip), IH. split.
      * intros (pre & r' & post & -> & Hpre & Hr').
        exists (r :: pre), r', post. repeat split; auto.
        intros p [<- | Hp]; auto.
      * intros (pre & r' & post & H & Hpre & Hr').
        destruct pre as [| p pre]; simpl in H; injection H as -> ->.
        -- elim (@resolvesWithout_excl_throw _ _ Hskip Hr').
        -- exists pre, r', post. repeat split; auto.
           intros q Hq. apply Hpre. now right.
    + rewrite (@hasScopeLoop_step_throw r rest _ He). split.
      * intros H. injection H as ->. exists [], r, rest.
        repeat split; auto. intros p [].
      * intros (pre & r' & post & H & Hpre & Hr').
        destruct pre as [| p pre]; simpl in H; injection H as -> ->.
        -- unfold getRole in He. congruence.
        -- elim (@resolvesWithout_excl_throw _ _ (Hpre _ (or_introl eq_refl)) He).
Qed.

End HasScopeLoop.

Lemma grant_found_when_all_resolve (aclConfig : IAclConfig.t)
      (this : ComposableACL.t) (scope : string) (names : list string) :
  (forall p, In p names -> configuredRole aclConfig p) ->
  (exists r role,
      In r names /\
      ComposableACL.getRole aclConfig this r = Ok role /\
      In scope (IAclRole.scopes role)) ->
  firstGrant aclConfig this scope names.
Proof.
  induction names as [| a rest IH]; intros Hall (r & role & Hin & Hr & Hs).
  - destruct Hin.
  - destruct (name_cases aclConfig this scope a)
      as [(ra & Ha & Hga) | [Hskip | (e & He)]].
    + exists [], a, rest, ra. repeat split; auto. intros p [].
    + destruct Hin as [<- | Hin].
      * elim (@resolvesWithout_excl_grant aclConfig this scope a role Hskip Hr Hs).
      * destruct IH as (pre & r' & post & role' & -> & Hpre & Hr' & Hs').
        -- intros p Hp. apply Hall. now right.
        -- now exists r, role.
        -- exists (a :: pre), r', post, role'. repeat split; auto.
           intros p [<- | Hp]; auto.
    + apply mixin_getRole_Throw in He. destruct He as [He _].
      elim He. apply Hall. now left.
Qed.

Lemma firstGrant_some (aclConfig : IAclConfig.t) (this : ComposableACL.t)
      (scope : string) (names : list string) :
  firstGrant aclConfig this scope names ->
  exists r role,
    In r names /\
    ComposableACL.getRole aclConfig this r = Ok role /\
    In scope (IAclRole.scopes role).
Proof.
  intros (pre & r & post & role & -> & _ & Hr & Hs).
  exists r, role. repeat split; auto. rewrite in_app_iff. right. now left.
Qed.

Lemma firstGrant_app (aclConfig : IAclConfig.t) (this : ComposableACL.t)
      (scope : string) (names more : list string) :
  firstGrant aclConfig this scope names ->
  firstGrant aclConfig this scope (names ++ more).
Proof.
  intros (pre & r & post & role & -> & Hpre & Hr & Hs).
  exists pre, r, (post ++ more), role. repeat split; auto.
  now rewrite <- app_assoc.
Qed.

Lemma resolvesWithout_configured (aclConfig : IAclConfig.t)
      (this : ComposableACL.t) (scope p : string) :
  resolvesWithout aclConfig this scope p -> configuredRole aclConfig p.
Proof.
  intros (role & Hr & _). apply mixin_getRole_Ok in Hr.
  eapply firstNamed_configured; eauto.
Qed.

Lemma firstGrant_grantAfterConfigured (aclConfig : IAclConfig.t)
      (this : ComposableACL.t) (scope : string) (names : list string) :
  firstGrant aclConfig this scope names <->
  grantAfterConfigured aclConfig this scope names.
Proof.
  split.
  - intros (pre & r & post & role & -> & Hpre & Hr & Hs).
    exists pre, r, post, role. repeat split; auto.
    intros p Hp. eapply resolvesWithout_configured; eauto.
  - intros (pre & r & post & role & -> & Hpre & Hr & Hs).
    replace (pre ++ r :: post) with ((pre ++ [r]) ++ post)
      by (rewrite <- app_assoc; reflexivity).
    apply firstGrant_app. apply grant_found_when_all_resolve.
    + intros p Hp. apply in_app_iff in Hp. destruct Hp as [Hp | [<- | []]].
      * now apply Hpre.
      * apply mixin_getRole_Ok in Hr. eapply firstNamed_configured; eauto.
    + exists r, role. repeat split; auto.
      apply in_app_iff. right. now left.
Qed.

(** C1, as the code has it.  [hasScope] returns true exactly when some
    assigned role name resolves to a role whose scopes contain the scope
    and every name before it in the list is a configured role; the scan
    goes in assignment order and stops at the first such role, so the names
    after it are not resolved.  If a name that is not configured is reached
    before any grant, the lookup's NotFound error is raised instead.  It
    returns false exactly when every assigned name resolves to a role
    without the scope, in particular when no role is assigned.  Returning
    true implies that some assigned role grants the scope, and the two are
    equivalent when every assigned name is configured. *)
Theorem C1_hasScope_first_grant
        (aclConfig : IAclConfig.t) (this : ComposableACL.t) (scope : string) :
  (ComposableACL.hasScope aclConfig this scope = Ok true <->
   grantAfterConfigured aclConfig this scope (assignedRoles this)) /\
  (ComposableACL.hasScope aclConfig this scope = Ok true <->
   firstGrant aclConfig this scope (assignedRoles this)) /\
  (ComposableACL.hasScope aclConfig this scope = Ok false <->
   forall p, In p (assignedRoles this) ->
             resolvesWithout aclConfig this scope p) /\
  (forall e,
      ComposableACL.hasScope aclConfig this scope = Throw e <->
      failsBeforeGrant aclConfig this scope (assignedRoles this) e) /\
  (ComposableACL.getAclRoles this = None ->
   ComposableACL.hasScope aclConfig this scope = Ok false) /\
  (ComposableACL.hasScope aclConfig this scope = Ok true ->
   someAssignedRoleGrants aclConfig this scope) /\
  ((forall p, In p (assignedRoles this) -> configuredRole aclConfig p) ->
   (ComposableACL.hasScope aclConfig this scope = Ok true <->
    someAssignedRoleGrants aclConfig this scope)).
Proof.
  unfold ComposableACL.hasScope. fold (assignedRoles this).
  split.
  { rewrite hasScopeLoop_true. apply firstGrant_grantAfterConfigured. }
  split; [apply hasScopeLoop_true |].
  split; [apply hasScopeLoop_false |].
  split; [intros e; apply hasScopeLoop_throw |].
  split.
  { intros H. unfold assignedRoles. rewrite H. reflexivity. }
  split.
  { intros H. apply hasScopeLoop_true in H. now apply firstGrant_some. }
  intros Hall. rewrite hasScopeLoop_true. split.
  - apply firstGrant_some.
  - apply grant_found_when_all_resolve. exact Hall.
Qed.

(** C1, the counterexample.  With the README's configuration and the
    assigned names ["ghost"; "role_user"], the role "role_user" is resolved
    from the list and grants "read:own", yet [hasScope] does not return
    true: the lookup of "ghost" raises first. *)
Lemma C1_unconfigured_name_before_grant :
  someAssignedRoleGrants exampleConfig ghostThenUser "read:own" /\
  ComposableACL.hasScope exampleConfig ghostThenUser "read:own"
    = Throw (roleNotFound BasicACLException "ghost") /\
  ~ (ComposableACL.hasScope exampleConfig ghostThenUser "read:own" = Ok true
     <-> someAssignedRoleGrants exampleConfig ghostThenUser "read:own").
Proof.
  assert (G : someAssignedRoleGrants exampleConfig ghostThenUser "read:own").
  { exists "role_user", (IAclRole.make "role_user" ["read:own"; "write:own"]).
    repeat split.
    - right. now left.
    - now left. }
  split; [exact G |]. split; [reflexivity |].
  intros [_ H]. specialize (H G). discriminate H.
Qed.

Lemma andThen_hasScopes (aclConfig : IAclConfig.t) (this : ComposableACL.t)
      (scopes : list string) :
  ComposableACL.hasScopes aclConfig this scopes
  = andThen (map (ComposableACL.hasScope aclConfig this) scopes).
Proof.
  induction scopes as [| s rest IH]; simpl; [reflexivity |].
  destruct (ComposableACL.hasScope aclConfig this s) as [[|] | e]; simpl; auto.
Qed.

Lemma andThen_true (checks : list (Result bool)) :
  andThen checks = Ok true <-> forall c, In c checks -> c = Ok true.
Proof.
  induction checks as [| c rest IH]; simpl.
  - split; auto. intros _ c [].
  - destruct c as [[|] | e].
    + rewrite IH. split.
      * intros H c [<- | Hc]; auto.
      * intros H c Hc. apply H. now right.
    + split; [discriminate |]. intros H.
      specialize (H _ (or_introl eq_refl)). discriminate.
    + split; [discriminate |]. intros H.
      specialize (H _ (or_introl eq_refl)). discriminate.
Qed.

Lemma andThen_false (checks : list (Result bool)) :
  andThen checks = Ok false <->
  exists pre post,
    checks = pre ++ Ok false :: post /\ forall c, In c pre -> c = Ok true.
Proof.
  induction checks as [| c rest IH]; simpl.
  - split; [discriminate |]. intros (pre & post & H & _).
    destruct pre; discriminate.
  - destruct c as [[|] | e].
    + rewrite IH. split.
      * intros (pre & post & -> & Hpre). exists (Ok true :: pre), post.
        split; auto. intros c [<- | Hc]; auto.
      * intros (pre & post & H & Hpre). destruct pre as [| p pre].
        -- discriminate.
        -- simpl in H. injection H as <- ->. exists pre, post. split; auto.
           intros c Hc. apply Hpre. now right.
    + split; auto. intros _. exists [], rest. split; auto. intros c [].
    + split; [discriminate |]. intros (pre & post & H & Hpre).
      destruct pre as [| p pre]; [discriminate |].
      simpl in H. injection H as <- ->.
      specialize (Hpre _ (or_introl eq_refl)). discriminate.
Qed.

Lemma andThen_all_return (bs : list bool) :
  andThen (map Ok bs) = Ok (forallb (fun b => b) bs).
Proof.
  induction bs as [| [|] bs IH]; simpl; auto.
Qed.

(** C8. [hasScopes] is the conjunction of [hasScope] over the scopes, taken
    in list order and stopping at the first false: it is true for the empty
    list; it returns true exactly when every check returns true; it returns
    false exactly when some check returns false and all checks before it
    returned true (whatever the later ones would do); and when every check
    returns a boolean, the result is the boolean conjunction of them. *)
Theorem C8_hasScopes_is_conjunction
        (aclConfig : IAclConfig.t) (this : ComposableACL.t)
        (scopes : list string) :
  ComposableACL.hasScopes aclConfig this scopes
    = andThen (map (ComposableACL.hasScope aclConfig this) scopes) /\
  ComposableACL.hasScopes aclConfig this [] = Ok true /\
  (ComposableACL.hasScopes aclConfig this scopes = Ok true <->
   forall s, In s scopes ->
             ComposableACL.hasScope aclConfig this s = Ok true) /\
  (ComposableACL.hasScopes aclConfig this scopes = Ok false <->
   exists pre s post,
     scopes = pre ++ s :: post /\
     (forall p, In p pre ->
                ComposableACL.hasScope aclConfig this p = Ok true) /\
     ComposableACL.hasScope aclConfig this s = Ok false) /\
  (forall bs,
      map (ComposableACL.hasScope aclConfig this) scopes = map Ok bs ->
      ComposableACL.hasScopes aclConfig this scopes
        = Ok (forallb (fun b => b) bs)).
Proof.
  split; [apply andThen_hasScopes |].
  split; [reflexivity |].
  split.
  { rewrite andThen_hasScopes, andThen_true. split.
    - intros H s Hs. apply H. now apply in_map.
    - intros H c Hc. apply in_map_iff in Hc. destruct Hc as (s & <- & Hs).
      auto. }
  split.
  { rewrite andThen_hasScopes, andThen_false. split.
    - intros (pre & post & H & Hpre).
      apply map_eq_app in H. destruct H as (l1 & l2 & -> & <- & H2).
      destruct l2 as [| s l2]; [discriminate |].
      simpl in H2. injection H2 as Hs <-.
      exists l1, s, l2. repeat split; auto.
      intros p Hp. apply Hpre. now apply in_map.
    - intros (pre & s & post & -> & Hpre & Hs).
      exists (map (ComposableACL.hasScope aclConfig this) pre),
             (map (ComposableACL.hasScope aclConfig this) post).
      rewrite map_app. simpl. rewrite Hs. split; auto.
      intros c Hc. apply in_map_iff in Hc. destruct Hc as (p & <- & Hp).
      auto. }
  intros bs H. rewrite andThen_hasScopes, H. apply andThen_all_return.
Qed.

(** ** Role checks *)

Lemma allIncluded_spec (assigned wanted : list string) :
  ComposableACL.allIncluded assigned wanted = true <->
  forall r, In r wanted -> In r assigned.
Proof.
  induction wanted as [| w rest IH]; simpl.
  - split; auto. intros _ r [].
  - destruct (includes assigned w) eqn:E; simpl.
    + apply includes_In in E. rewrite IH. split.
      * intros H r [<- | Hr]; auto.
      * intros H r Hr. apply H. now right.
    + apply includes_not_In in E. split; [discriminate |].
      intros H. elim E. apply H. now left.
Qed.

(** C4. [hasRole] has no raising path, so it is a total boolean function.
    It is true exactly when every name of the normalised input is among the
    object's assigned role names; it is true for the empty input; for a
    single name it is membership in the assigned list; the configuration
    plays no part, so a name that is not a configured role is answered
    like any other. *)
Theorem C4_hasRole_all_assigned
        (aclConfig : IAclConfig.t) (this : ComposableACL.t)
        (role : StringOrArray) :
  (ComposableACL.hasRole aclConfig this role = true <->
   forall r, In r (toArray role) -> In r (assignedRoles this)) /\
  ComposableACL.hasRole aclConfig this (Arr []) = true /\
  (forall x,
      ComposableACL.hasRole aclConfig this (Arr [x]) = true <->
      In x (assignedRoles this)) /\
  (forall x,
      ComposableACL.hasRole aclConfig this (Str x) = true <->
      In x (assignedRoles this)) /\
  (forall otherConfig,
      ComposableACL.hasRole otherConfig this role
      = ComposableACL.hasRole aclConfig this role) /\
  (forall x,
      ~ configuredRole aclConfig x ->
      ComposableACL.hasRole aclConfig this (Str x)
      = includes (assignedRoles this) x).
Proof.
  unfold ComposableACL.hasRole. fold (assignedRoles this).
  split; [apply allIncluded_spec |].
  split; [reflexivity |].
  assert (One : forall x,
             ComposableACL.allIncluded (assignedRoles this) [x] = true <->
             In x (assignedRoles this)).
  { intros x. rewrite allIncluded_spec. split.
    - intros H. apply H. now left.
    - intros H r [<- | []]. exact H. }
  split; [exact One |]. split; [exact One |].
  split; [reflexivity |].
  intros x _. simpl. now destruct (includes (assignedRoles this) x).
Qed.

(** ** Scope aggregation *)

Lemma service_collectScopes_acc (this : BasicACLService.t)
      (names acc : list string) :
  BasicACLService.collectScopes this acc names
  = (s <- BasicACLService.collectScopes this [] names ;; Ok (acc ++ s)).
Proof.
  revert acc. induction names as [| n rest IH]; intros acc; simpl.
  - now rewrite app_nil_r.
  - destruct (BasicACLService.getRole this n) as [role | e]; simpl; auto.
    rewrite IH. rewrite (IH (IAclRole.scopes role)).
    destruct (BasicACLService.collectScopes this [] rest); simpl; auto.
    now rewrite app_assoc.
Qed.

Lemma mixin_collectScopes_acc (aclConfig : IAclConfig.t)
      (this : ComposableACL.t) (names acc : list string) :
  ComposableACL.collectScopes aclConfig this acc names
  = (s <- ComposableACL.collectScopes aclConfig this [] names ;;
     Ok (acc ++ s)).
Proof.
  revert acc. induction names as [| n rest IH]; intros acc; simpl.
  - now rewrite app_nil_r.
  - destruct (ComposableACL.getRole aclConfig this n) as [role | e];
      simpl; auto.
    rewrite IH. rewrite (IH (IAclRole.scopes role)).
    destruct (ComposableACL.collectScopes aclConfig this [] rest);
      simpl; auto.
    now rewrite app_assoc.
Qed.

(** Aggregation over a concatenated list of names is the concatenation of
    the aggregations, whenever it is defined. *)
Lemma service_getRoleScopes_app (this : BasicACLService.t)
      (l1 l2 : list string) :
  BasicACLService.getRoleScopes this (Arr (l1 ++ l2))
  = (a <- BasicACLService.getRoleScopes this (Arr l1) ;;
     b <- BasicACLService.getRoleScopes this (Arr l2) ;;
     Ok (a ++ b)).
Proof.
  unfold BasicACLService.getRoleScopes. simpl.
  generalize (@nil string) at 1 2 as acc.
  induction l1 as [| n rest IH]; intros acc; simpl.
  - apply service_collectScopes_acc.
  - destruct (BasicACLService.getRole this n) as [role | e]; simpl; auto.
Qed.

Lemma mixin_getRoleScopes_app (aclConfig : IAclConfig.t)
      (this : ComposableACL.t) (l1 l2 : list string) :
  ComposableACL.getRoleScopes aclConfig this (Arr (l1 ++ l2))
  = (a <- ComposableACL.getRoleScopes aclConfig this (Arr l1) ;;
     b <- ComposableACL.getRoleScopes aclConfig this (Arr l2) ;;
     Ok (a ++ b)).
Proof.
  unfold ComposableACL.getRoleScopes. simpl.
  generalize (@nil string) at 1 2 as acc.
  induction l1 as [| n rest IH]; intros acc; simpl.
  - apply mixin_collectScopes_acc.
  - destruct (ComposableACL.getRole aclConfig this n) as [role | e];
      simpl; auto.
Qed.

Lemma service_getRoleScopes_one (this : BasicACLService.t) (r : string) :
  BasicACLService.getRoleScopes this (Arr [r])
  = BasicACLService.getRoleScopes this (Str r).
Proof. reflexivity. Qed.

Lemma mixin_getRoleScopes_one (aclConfig : IAclConfig.t)
      (this : ComposableACL.t) (r : string) :
  ComposableACL.getRoleScopes aclConfig this (Arr [r])
  = ComposableACL.getRoleScopes aclConfig this (Str r).
Proof. reflexivity. Qed.

Lemma service_getRoleScopes_single (this : BasicACLService.t) (r : string)
      (role : IAclRole.t) :
  BasicACLService.getRole this r = Ok role ->
  BasicACLService.getRoleScopes this (Str r) = Ok (IAclRole.scopes role).
Proof.
  intros H. unfold BasicACLService.getRoleScopes. simpl. now rewrite H.
Qed.

Lemma mixin_getRoleScopes_single (aclConfig : IAclConfig.t)
      (this : ComposableACL.t) (r : string) (role : IAclRole.t) :
  ComposableACL.getRole aclConfig this r = Ok role ->
  ComposableACL.getRoleScopes aclConfig this (Str r)
  = Ok (IAclRole.scopes role).
Proof.
  intros H. unfold ComposableACL.getRoleScopes. simpl. now rewrite H.
Qed.

(** C5. For configured role names [r1] and [r2], [getRoleScopes] of each
    name returns the scopes of the role it resolves to, and
    [getRoleScopes([r1, r2])] returns the first list followed by the
    second, nothing reordered and nothing dropped, in both classes. *)
Theorem C5_getRoleScopes_concat
        (aclConfig : IAclConfig.t) (this : ComposableACL.t)
        (r1 r2 : string) :
  configuredRole aclConfig r1 ->
  configuredRole aclConfig r2 ->
  exists role1 role2,
    firstNamed (IAclConfig.roles aclConfig) r1 role1 /\
    firstNamed (IAclConfig.roles aclConfig) r2 role2 /\
    BasicACLService.getRoleScopes (BasicACLService.make aclConfig) (Str r1)
      = Ok (IAclRole.scopes role1) /\
    BasicACLService.getRoleScopes (BasicACLService.make aclConfig) (Str r2)
      = Ok (IAclRole.scopes role2) /\
    BasicACLService.getRoleScopes (BasicACLService.make aclConfig)
                                  (Arr [r1; r2])
      = Ok (IAclRole.scopes role1 ++ IAclRole.scopes role2) /\
    ComposableACL.getRoleScopes aclConfig this (Str r1)
      = Ok (IAclRole.scopes role1) /\
    ComposableACL.getRoleScopes aclConfig this (Str r2)
      = Ok (IAclRole.scopes role2) /\
    ComposableACL.getRoleScopes aclConfig this (Arr [r1; r2])
      = Ok (IAclRole.scopes role1 ++ IAclRole.scopes role2).
Proof.
  intros H1 H2.
  destruct (configured_has_first _ _ H1) as [role1 F1].
  destruct (configured_has_first _ _ H2) as [role2 F2].
  exists role1, role2.
  pose proof (proj2 (service_getRole_Ok (BasicACLService.make aclConfig)
                                        r1 role1) F1) as S1.
  pose proof (proj2 (service_getRole_Ok (BasicACLService.make aclConfig)
                                        r2 role2) F2) as S2.
  pose proof (proj2 (mixin_getRole_Ok aclConfig this r1 role1) F1) as M1.
  pose proof (proj2 (mixin_getRole_Ok aclConfig this r2 role2) F2) as M2.
  split; [exact F1 |]. split; [exact F2 |].
  split; [now apply service_getRoleScopes_single |].
  split; [now apply service_getRoleScopes_single |].
  split.
  { change [r1; r2] with ([r1] ++ [r2]).
    rewrite service_getRoleScopes_app, !service_getRoleScopes_one.
    rewrite (service_getRoleScopes_single _ _ S1).
    rewrite (service_getRoleScopes_single _ _ S2). reflexivity. }
  split; [now apply mixin_getRoleScopes_single |].
  split; [now apply mixin_getRoleScopes_single |].
  change [r1; r2] with ([r1] ++ [r2]).
  rewrite mixin_getRoleScopes_app, !mixin_getRoleScopes_one.
  rewrite (mixin_getRoleScopes_single _ _ _ M1).
  rewrite (mixin_getRoleScopes_single _ _ _ M2). reflexivity.
Qed.

(** C5 at the README's configuration: the scopes of "role_admin" followed
    by those of "role_user". *)
Lemma C5_getRoleScopes_concat_example :
  exists role1 role2,
    firstNamed (IAclConfig.roles exampleConfig) "role_admin" role1 /\
    firstNamed (IAclConfig.roles exampleConfig) "role_user" role2 /\
    BasicACLService.getRoleScopes (BasicACLService.make exampleConfig)
                                  (Str "role_admin")
      = Ok (IAclRole.scopes role1) /\
    BasicACLService.getRoleScopes (BasicACLService.make exampleConfig)
                                  (Str "role_user")
      = Ok (IAclRole.scopes role2) /\
    BasicACLService.getRoleScopes (BasicACLService.make exampleConfig)
                                  (Arr ["role_admin"; "role_user"])
      = Ok (IAclRole.scopes role1 ++ IAclRole.scopes role2) /\
    ComposableACL.getRoleScopes exampleConfig ComposableACL.new
                                (Str "role_admin")
      = Ok (IAclRole.scopes role1) /\
    ComposableACL.getRoleScopes exampleConfig ComposableACL.new
                                (Str "role_user")
      = Ok (IAclRole.scopes role2) /\
    ComposableACL.getRoleScopes exampleConfig ComposableACL.new
                                (Arr ["role_admin"; "role_user"])
      = Ok (IAclRole.scopes role1 ++ IAclRole.scopes role2).
Proof.
  apply (C5_getRoleScopes_concat exampleConfig ComposableACL.new
                                 "role_admin" "role_user");
    unfold configuredRole; simpl; auto.
Defined.

(** Duplicates are kept: the same role twice yields its scopes twice. *)
Example getRoleScopes_keeps_duplicates :
  BasicACLService.getRoleScopes (BasicACLService.make exampleConfig)
                                (Arr ["role_user"; "role_user"])
  = Ok ["read:own"; "write:own"; "read:own"; "write:own"] /\
  ComposableACL.getRoleScopes exampleConfig ComposableACL.new
                              (Arr ["role_user"; "role_user"])
  = Ok ["read:own"; "write:own"; "read:own"; "write:own"].
Proof. split; reflexivity. Qed.

(** ** Mutations of the role list *)

Lemma mixin_replacesRoles : replacesRoles ComposableACL.asEntity.
Proof.
  intros roles st st' H. simpl in H. injection H as <-.
  unfold currentRoles. simpl.
  unfold ComposableACL.getAclRoles, ComposableACL.setAclRoles. simpl.
  destruct roles; reflexivity.
Qed.

Lemma mixin_accessorsReturn : accessorsReturn ComposableACL.asEntity.
Proof.
  repeat split; intros; simpl; eauto.
Qed.

(** C6. [assignRoleToUser] replaces the role list by the normalised input
    whatever was stored before, and doing it twice leaves the same list.
    In the mixin this holds of the stored field and of the list its methods
    read; the service calls the entity's setter with the normalised input
    and nothing else, so it holds of every entity whose setter replaces the
    list, and of the mixin object in particular. *)
Theorem C6_assignRoleToUser_replaces
        (aclConfig : IAclConfig.t) (this : ComposableACL.t)
        (role : StringOrArray) :
  ComposableACL._aclRoles (ComposableACL.assignRoleToUser aclConfig this role)
    = toArray role /\
  assignedRoles (ComposableACL.assignRoleToUser aclConfig this role)
    = toArray role /\
  ComposableACL._aclGroups (ComposableACL.assignRoleToUser aclConfig this role)
    = ComposableACL._aclGroups this /\
  ComposableACL.assignRoleToUser
      aclConfig (ComposableACL.assignRoleToUser aclConfig this role) role
    = ComposableACL.assignRoleToUser aclConfig this role /\
  assignedRoles
      (ComposableACL.assignRoleToUser
         aclConfig (ComposableACL.assignRoleToUser aclConfig this role) role)
    = toArray role /\
  (forall service,
      BasicACLService.assignRoleToUser ComposableACL.asEntity service
                                       this role
      = Ok (ComposableACL.assignRoleToUser aclConfig this role)) /\
  (forall (S : Type) (data : IAccessControlEntity.t S) service st,
      BasicACLService.assignRoleToUser data service st role
      = IAccessControlEntity.setAclRoles data (toArray role) st) /\
  (forall (S : Type) (data : IAccessControlEntity.t S) service st st1 st2,
      replacesRoles data ->
      BasicACLService.assignRoleToUser data service st role = Ok st1 ->
      BasicACLService.assignRoleToUser data service st1 role = Ok st2 ->
      currentRoles data st1 = Ok (toArray role) /\
      currentRoles data st2 = Ok (toArray role)).
Proof.
  split; [reflexivity |].
  split; [now rewrite assignedRoles_stored |].
  split; [reflexivity |].
  split; [reflexivity |].
  split; [now rewrite assignedRoles_stored |].
  split; [reflexivity |].
  split; [reflexivity |].
  intros S data service st st1 st2 Hset H1 H2. split.
  - exact (Hset _ _ _ H1).
  - exact (Hset _ _ _ H2).
Qed.

(** C6 on an object that held other roles: assigning ["role_user"] once or
    twice through the service leaves exactly ["role_user"]. *)
Lemma C6_assignRoleToUser_replaces_example :
  currentRoles ComposableACL.asEntity
               (ComposableACL.make ["role_user"] ["admin"])
    = Ok (toArray (Str "role_user")) /\
  currentRoles ComposableACL.asEntity
               (ComposableACL.make ["role_user"] ["admin"])
    = Ok (toArray (Str "role_user")).
Proof.
  apply (proj2 (proj2 (proj2 (proj2 (proj2 (proj2 (proj2
           (C6_assignRoleToUser_replaces
              exampleConfig
              (ComposableACL.make ["role_admin"; "ghost"] ["admin"])
              (Str "role_user"))))))))
         ComposableACL.t ComposableACL.asEntity
         (BasicACLService.make exampleConfig)
         (ComposableACL.make ["role_admin"; "ghost"] ["admin"])
         (ComposableACL.make ["role_user"] ["admin"])
         (ComposableACL.make ["role_user"] ["admin"])).
  - exact mixin_replacesRoles.
  - reflexivity.
  - reflexivity.
Defined.

Lemma notListed_true (names : list string) (r : string) :
  notListed names r = true <-> ~ In r names.
Proof.
  unfold notListed. rewrite <- includes_not_In.
  destruct (includes names r); simpl; split; congruence.
Qed.

Lemma filter_Subseq (A : Type) (f : A -> bool) (l : list A) :
  Subseq (filter f l) l.
Proof.
  induction l as [| a l IH]; simpl.
  - constructor.
  - destruct (f a); now constructor.
Qed.

Lemma filter_count_kept (f : string -> bool) (l : list string) (r : string) :
  f r = true ->
  count_occ string_dec (filter f l) r = count_occ string_dec l r.
Proof.
  intros Hr. induction l as [| a l IH]; simpl; auto.
  destruct (string_dec a r) as [-> | Hne].
  - rewrite Hr. simpl. destruct (string_dec r r); congruence.
  - destruct (f a); simpl; auto.
    destruct (string_dec a r); congruence.
Qed.

Lemma mixin_removeRole_stored (aclConfig : IAclConfig.t)
      (this : ComposableACL.t) (role : StringOrArray) :
  assignedRoles (ComposableACL.removeRoleFromUser aclConfig this role)
  = filter (notListed (toArray role)) (assignedRoles this).
Proof.
  rewrite assignedRoles_stored. reflexivity.
Qed.

Lemma hasRole_single (aclConfig : IAclConfig.t) (this : ComposableACL.t)
      (r : string) :
  ComposableACL.hasRole aclConfig this (Str r)
  = includes (assignedRoles this) r.
Proof.
  unfold ComposableACL.hasRole. fold (assignedRoles this). simpl.
  now destruct (includes (assignedRoles this) r).
Qed.

(** C7. [removeRoleFromUser] writes back the previous role list (absent
    read as empty) filtered to the names that do not occur in the
    normalised input: the new list is a subsequence of the old one, holds
    exactly the old names that are not in the input, each as often as
    before, and the group list is untouched.  Afterwards [hasRole] is false
    for every name of the input and true for every name that was assigned
    and is not in the input.  The service computes the same filtered list
    from what the entity's getter returns and hands it to the setter. *)
Theorem C7_removeRoleFromUser_filters
        (aclConfig : IAclConfig.t) (this : ComposableACL.t)
        (role : StringOrArray) :
  assignedRoles (ComposableACL.removeRoleFromUser aclConfig this role)
    = filter (notListed (toArray role)) (assignedRoles this) /\
  Subseq (assignedRoles (ComposableACL.removeRoleFromUser aclConfig this role))
         (assignedRoles this) /\
  (forall r,
      In r (assignedRoles
              (ComposableACL.removeRoleFromUser aclConfig this role)) <->
      In r (assignedRoles this) /\ ~ In r (toArray role)) /\
  (forall r,
      ~ In r (toArray role) ->
      count_occ string_dec
                (assignedRoles
                   (ComposableACL.removeRoleFromUser aclConfig this role)) r
      = count_occ string_dec (assignedRoles this) r) /\
  ComposableACL._aclGroups
      (ComposableACL.removeRoleFromUser aclConfig this role)
    = ComposableACL._aclGroups this /\
  (forall r,
      In r (toArray role) ->
      ComposableACL.hasRole
        aclConfig (ComposableACL.removeRoleFromUser aclConfig this role)
        (Str r) = false) /\
  (forall r,
      In r (assignedRoles this) -> ~ In r (toArray role) ->
      ComposableACL.hasRole
        aclConfig (ComposableACL.removeRoleFromUser aclConfig this role)
        (Str r) = true) /\
  (forall service,
      BasicACLService.removeRoleFromUser ComposableACL.asEntity service
                                         this role
      = Ok (ComposableACL.removeRoleFromUser aclConfig this role)) /\
  (forall (S : Type) (data : IAccessControlEntity.t S) service st,
      BasicACLService.removeRoleFromUser data service st role
      = (got <- IAccessControlEntity.getAclRoles data st ;;
         IAccessControlEntity.setAclRoles
           data (filter (notListed (toArray role)) (orEmpty got)) st)) /\
  (forall (S : Type) (data : IAccessControlEntity.t S) service st st'
          previous,
      replacesRoles data ->
      currentRoles data st = Ok previous ->
      BasicACLService.removeRoleFromUser data service st role = Ok st' ->
      currentRoles data st'
      = Ok (filter (notListed (toArray role)) previous)).
Proof.
  pose proof (mixin_removeRole_stored aclConfig this role) as Hst.
  split; [exact Hst |].
  split; [rewrite Hst; apply filter_Subseq |].
  assert (Hmem : forall r,
             In r (assignedRoles
                     (ComposableACL.removeRoleFromUser aclConfig this role))
             <-> In r (assignedRoles this) /\ ~ In r (toArray role)).
  { intros r. rewrite Hst, filter_In, notListed_true. tauto. }
  split; [exact Hmem |].
  split.
  { intros r Hr. rewrite Hst. apply filter_count_kept.
    now apply notListed_true. }
  split; [reflexivity |].
  split.
  { intros r Hr. rewrite hasRole_single. apply includes_not_In.
    rewrite Hmem. tauto. }
  split.
  { intros r Hr Hn. rewrite hasRole_single. apply includes_In.
    rewrite Hmem. tauto. }
  split; [reflexivity |].
  split; [reflexivity |].
  intros S data service st st' previous Hset Hprev Hrm.
  unfold BasicACLService.removeRoleFromUser, currentRoles in *.
  destruct (IAccessControlEntity.getAclRoles data st) as [got | e];
    simpl in *; [| discriminate].
  injection Hprev as <-. exact (Hset _ _ _ Hrm).
Qed.

(** C7 on an object with roles ["a"; "b"; "a"; "c"]: removing ["a"; "x"]
    through the service leaves ["b"; "c"]. *)
Lemma C7_removeRoleFromUser_filters_example :
  currentRoles ComposableACL.asEntity (ComposableACL.make ["b"; "c"] [])
  = Ok (filter (notListed (toArray (Arr ["a"; "x"]))) ["a"; "b"; "a"; "c"]).
Proof.
  apply (proj2 (proj2 (proj2 (proj2 (proj2 (proj2 (proj2 (proj2 (proj2
           (C7_removeRoleFromUser_filters
              exampleConfig (ComposableACL.make ["a"; "b"; "a"; "c"] [])
              (Arr ["a"; "x"]))))))))))
         ComposableACL.t ComposableACL.asEntity
         (BasicACLService.make exampleConfig)
         (ComposableACL.make ["a"; "b"; "a"; "c"] [])
         (ComposableACL.make ["b"; "c"] [])
         ["a"; "b"; "a"; "c"]).
  - exact mixin_replacesRoles.
  - reflexivity.
  - reflexivity.
Defined.

(** ** Failure of mutations *)

Section MutationFailures.
Variable S : Type.
Variable data : IAccessControlEntity.t S.
Variable st : S.

Lemma setRoles_failsOnlyThroughEntity (names : list string) :
  failsOnlyThroughEntity data st
    (IAccessControlEntity.setAclRoles data names st).
Proof.
  split.
  - intros e H. right. right. left. now exists names.
  - intros (_ & _ & H & _). apply H.
Qed.

Lemma setGroups_failsOnlyThroughEntity (names : list string) :
  failsOnlyThroughEntity data st
    (IAccessControlEntity.setAclGroups data names st).
Proof.
  split.
  - intros e H. right. right. right. now exists names.
  - intros (_ & _ & _ & H). apply H.
Qed.

Lemma readRoles_failsOnlyThroughEntity
      (k : option (list string) -> Result S) :
  (forall got, failsOnlyThroughEntity data st (k got)) ->
  failsOnlyThroughEntity data st
    (got <- IAccessControlEntity.getAclRoles data st ;; k got).
Proof.
  intros Hk. split.
  - intros e H.
    destruct (IAccessControlEntity.getAclRoles data st) as [got | e'] eqn:E;
      simpl in H.
    + now apply (Hk got).
    + injection H as ->. now left.
  - intros Hret. destruct Hret as (Hget & Hrest).
    destruct (Hget st) as [got Hgot]. rewrite Hgot. simpl.
    apply (Hk got). split; auto.
Qed.

Lemma readGroups_failsOnlyThroughEntity
      (k : option (list string) -> Result S) :
  (forall got, failsOnlyThroughEntity data st (k got)) ->
  failsOnlyThroughEntity data st
    (got <- IAccessControlEntity.getAclGroups data st ;; k got).
Proof.
  intros Hk. split.
  - intros e H.
    destruct (IAccessControlEntity.getAclGroups data st) as [got | e'] eqn:E;
      simpl in H.
    + now apply (Hk got).
    + injection H as ->. right. now left.
  - intros Hret. pose proof Hret as (_ & Hget & _).
    destruct (Hget st) as [got Hgot]. rewrite Hgot. simpl.
    now apply (Hk got).
Qed.

End MutationFailures.

Lemma bind_readsThenWrites (S : Type)
      (read : S -> Result (option (list string)))
      (write : list string -> S -> Result S)
      (update : list string -> list string) (st : S) :
  readsThenWrites read write update st
    (got <- read st ;; write (update (orEmpty got)) st).
Proof.
  split.
  - intros e H. rewrite H. reflexivity.
  - intros got H. rewrite H. reflexivity.
Qed.

(** C9. None of the six mutations of the service looks anything up in the
    configuration, so none can raise a lookup's NotFound error, whatever
    the names: each outcome is the same under every configuration.
    [assignRoleToUser] and [assignGroupToUser] are exactly the entity's
    setter on the normalised input.  The other four read the list first:
    an error raised by the getter is the outcome of the mutation,
    unchanged, and otherwise the outcome is exactly what the setter does
    with the updated list, so an error raised by the setter is the outcome
    too.  Hence an error raised by a mutation is the very error one of the
    entity's accessors raised on that state, and when the accessors return,
    the mutation returns. *)
Theorem C9_mutations_fail_only_through_entity
        (S : Type) (data : IAccessControlEntity.t S)
        (this : BasicACLService.t) (st : S)
        (names : StringOrArray) (name : string) :
  (BasicACLService.assignRoleToUser data this st names
   = IAccessControlEntity.setAclRoles data (toArray names) st /\
   readsThenWrites
     (IAccessControlEntity.getAclRoles data)
     (IAccessControlEntity.setAclRoles data)
     (fun current => current ++ [name]) st
     (BasicACLService.appendRoleToUser data this st name) /\
   readsThenWrites
     (IAccessControlEntity.getAclRoles data)
     (IAccessControlEntity.setAclRoles data)
     (filter (notListed (toArray names))) st
     (BasicACLService.removeRoleFromUser data this st names) /\
   BasicACLService.assignGroupToUser data this st names
   = IAccessControlEntity.setAclGroups data (toArray names) st /\
   readsThenWrites
     (IAccessControlEntity.getAclGroups data)
     (IAccessControlEntity.setAclGroups data)
     (fun current => current ++ [name]) st
     (BasicACLService.appendGroupToUser data this st name) /\
   readsThenWrites
     (IAccessControlEntity.getAclGroups data)
     (IAccessControlEntity.setAclGroups data)
     (filter (notListed (toArray names))) st
     (BasicACLService.removeGroupFromUser data this st names)) /\
  (forall other,
      BasicACLService.assignRoleToUser data other st names
      = BasicACLService.assignRoleToUser data this st names /\
      BasicACLService.appendRoleToUser data other st name
      = BasicACLService.appendRoleToUser data this st name /\
      BasicACLService.removeRoleFromUser data other st names
      = BasicACLService.removeRoleFromUser data this st names /\
      BasicACLService.assignGroupToUser data other st names
      = BasicACLService.assignGroupToUser data this st names /\
      BasicACLService.appendGroupToUser data other st name
      = BasicACLService.appendGroupToUser data this st name /\
      BasicACLService.removeGroupFromUser data other st names
      = BasicACLService.removeGroupFromUser data this st names) /\
  failsOnlyThroughEntity
    data st (BasicACLService.assignRoleToUser data this st names) /\
  failsOnlyThroughEntity
    data st (BasicACLService.appendRoleToUser data this st name) /\
  failsOnlyThroughEntity
    data st (BasicACLService.removeRoleFromUser data this st names) /\
  failsOnlyThroughEntity
    data st (BasicACLService.assignGroupToUser data this st names) /\
  failsOnlyThroughEntity
    data st (BasicACLService.appendGroupToUser data this st name) /\
  failsOnlyThroughEntity
    data st (BasicACLService.removeGroupFromUser data this st names).
Proof.
  split.
  { split; [reflexivity |].
    split.
    { apply (bind_readsThenWrites
               (IAccessControlEntity.getAclRoles data)
               (IAccessControlEntity.setAclRoles data)
               (fun current => current ++ [name])). }
    split.
    { apply (bind_readsThenWrites
               (IAccessControlEntity.getAclRoles data)
               (IAccessControlEntity.setAclRoles data)
               (filter (notListed (toArray names)))). }
    split; [reflexivity |].
    split.
    { apply (bind_readsThenWrites
               (IAccessControlEntity.getAclGroups data)
               (IAccessControlEntity.setAclGroups data)
               (fun current => current ++ [name])). }
    apply (bind_readsThenWrites
             (IAccessControlEntity.getAclGroups data)
             (IAccessControlEntity.setAclGroups data)
             (filter (notListed (toArray names)))). }
  split.
  { intros other. repeat split. }
  split; [apply setRoles_failsOnlyThroughEntity |].
  split.
  { apply readRoles_failsOnlyThroughEntity. intros got.
    apply setRoles_failsOnlyThroughEntity. }
  split.
  { apply readRoles_failsOnlyThroughEntity. intros got.
    apply setRoles_failsOnlyThroughEntity. }
  split; [apply setGroups_failsOnlyThroughEntity |].
  split.
  { apply readGroups_failsOnlyThroughEntity. intros got.
    apply setGroups_failsOnlyThroughEntity. }
  apply readGroups_failsOnlyThroughEntity. intros got.
  apply setGroups_failsOnlyThroughEntity.
Qed.

(** The six mutations on an entity whose getters raise, and on one whose
    setters raise: the accessor's error comes out as it went in. *)
Example mutations_pass_on_accessor_errors :
  let e := mkException (Foreign "StoreError") "store unavailable" in
  let service := BasicACLService.make exampleConfig in
  BasicACLService.appendRoleToUser (unreadableEntity e) service tt "x"
  = Throw e /\
  BasicACLService.removeRoleFromUser (unreadableEntity e) service tt (Str "x")
  = Throw e /\
  BasicACLService.appendGroupToUser (unreadableEntity e) service tt "x"
  = Throw e /\
  BasicACLService.removeGroupFromUser (unreadableEntity e) service tt
                                      (Str "x")
  = Throw e /\
  BasicACLService.assignRoleToUser (unreadableEntity e) service tt
                                   (Arr ["ghost"])
  = Ok tt /\
  BasicACLService.assignRoleToUser (unwritableEntity e) service tt (Str "x")
  = Throw e /\
  BasicACLService.appendRoleToUser (unwritableEntity e) service tt "x"
  = Throw e /\
  BasicACLService.removeRoleFromUser (unwritableEntity e) service tt
                                     (Arr [])
  = Throw e /\
  BasicACLService.assignGroupToUser (unwritableEntity e) service tt (Str "x")
  = Throw e /\
  BasicACLService.appendGroupToUser (unwritableEntity e) service tt "x"
  = Throw e /\
  BasicACLService.removeGroupFromUser (unwritableEntity e) service tt
                                      (Arr [])
  = Throw e.
Proof. repeat split. Qed.

(** The mutations on names that the configuration does not know. *)
Example mutations_accept_unconfigured_names :
  BasicACLService.assignRoleToUser
    ComposableACL.asEntity (BasicACLService.make exampleConfig)
    ComposableACL.new (Arr ["ghost"])
  = Ok (ComposableACL.make ["ghost"] []) /\
  BasicACLService.appendGroupToUser
    ComposableACL.asEntity (BasicACLService.make exampleConfig)
    (ComposableACL.make [] ["user"]) "nowhere"
  = Ok (ComposableACL.make [] ["user"; "nowhere"]) /\
  BasicACLService.removeRoleFromUser
    ComposableACL.asEntity (BasicACLService.make exampleConfig)
    (ComposableACL.make ["ghost"; "role_user"] []) (Str "ghost")
  = Ok (ComposableACL.make ["role_user"] []).
Proof. repeat split. Qed.

(** ** The read interface of the mixin *)

Lemma getAclRoles_cases (this : ComposableACL.t) :
  (ComposableACL._aclRoles this = [] /\
   ComposableACL.getAclRoles this = None) \/
  (ComposableACL._aclRoles this <> [] /\
   ComposableACL.getAclRoles this = Some (ComposableACL._aclRoles this)).
Proof.
  unfold ComposableACL.getAclRoles.
  destruct (ComposableACL._aclRoles this); simpl.
  - now left.
  - right. split; [discriminate | reflexivity].
Qed.

Lemma getAclGroups_cases (this : ComposableACL.t) :
  (ComposableACL._aclGroups this = [] /\
   ComposableACL.getAclGroups this = None) \/
  (ComposableACL._aclGroups this <> [] /\
   ComposableACL.getAclGroups this = Some (ComposableACL._aclGroups this)).
Proof.
  unfold ComposableACL.getAclGroups.
  destruct (ComposableACL._aclGroups this); simpl.
  - now left.
  - right. split; [discriminate | reflexivity].
Qed.

Lemma getAclRoles_None (this : ComposableACL.t) :
  ComposableACL.getAclRoles this = None <-> ComposableACL._aclRoles this = [].
Proof.
  destruct (getAclRoles_cases this) as [[He ->] | [Hne ->]];
    split; congruence.
Qed.

Lemma getAclGroups_None (this : ComposableACL.t) :
  ComposableACL.getAclGroups this = None <->
  ComposableACL._aclGroups this = [].
Proof.
  destruct (getAclGroups_cases this) as [[He ->] | [Hne ->]];
    split; congruence.
Qed.

Lemma mixin_removeGroup_stored (aclConfig : IAclConfig.t)
      (this : ComposableACL.t) (group : StringOrArray) :
  assignedGroups (ComposableACL.removeGroupFromUser aclConfig this group)
  = filter (notListed (toArray group)) (assignedGroups this).
Proof.
  rewrite assignedGroups_stored. reflexivity.
Qed.

Lemma filter_notListed_all (names l : list string) :
  (forall r, In r l -> In r names) -> filter (notListed names) l = [].
Proof.
  intros H. induction l as [| a l IH]; simpl; auto.
  destruct (notListed names a) eqn:E.
  - apply notListed_true in E. elim E. apply H. now left.
  - apply IH. intros r Hr. apply H. now right.
Qed.

(** C10. The mixin's [getAclRoles] and [getAclGroups] never return an
    empty list: they return null exactly when the stored list is empty and
    the stored list otherwise.  So a fresh object, an object to which the
    empty list was assigned, and an object from which every assigned name
    was removed all read as absent. *)
Theorem C10_mixin_getters_never_empty
        (aclConfig : IAclConfig.t) (this : ComposableACL.t)
        (names : list string) :
  ComposableACL.getAclRoles this <> Some [] /\
  ComposableACL.getAclGroups this <> Some [] /\
  (ComposableACL.getAclRoles this = None <->
   ComposableACL._aclRoles this = []) /\
  (ComposableACL.getAclGroups this = None <->
   ComposableACL._aclGroups this = []) /\
  ComposableACL.getAclRoles ComposableACL.new = None /\
  ComposableACL.getAclGroups ComposableACL.new = None /\
  ComposableACL.getAclRoles
    (ComposableACL.assignRoleToUser aclConfig this (Arr [])) = None /\
  ComposableACL.getAclGroups
    (ComposableACL.assignGroupToUser aclConfig this (Arr [])) = None /\
  ComposableACL.getAclRoles
    (ComposableACL.removeRoleFromUser
       aclConfig this (Arr (assignedRoles this))) = None /\
  ComposableACL.getAclGroups
    (ComposableACL.removeGroupFromUser
       aclConfig this (Arr (assignedGroups this))) = None /\
  ((forall r, In r (assignedRoles this) -> In r names) ->
   ComposableACL.getAclRoles
     (ComposableACL.removeRoleFromUser aclConfig this (Arr names)) = None) /\
  ((forall g, In g (assignedGroups this) -> In g names) ->
   ComposableACL.getAclGroups
     (ComposableACL.removeGroupFromUser aclConfig this (Arr names)) = None).
Proof.
  assert (R : forall l,
             (forall r, In r (assignedRoles this) -> In r l) ->
             ComposableACL.getAclRoles
               (ComposableACL.removeRoleFromUser aclConfig this (Arr l))
             = None).
  { intros l H. apply getAclRoles_None.
    rewrite <- assignedRoles_stored, mixin_removeRole_stored.
    now apply filter_notListed_all. }
  assert (G : forall l,
             (forall g, In g (assignedGroups this) -> In g l) ->
             ComposableACL.getAclGroups
               (ComposableACL.removeGroupFromUser aclConfig this (Arr l))
             = None).
  { intros l H. apply getAclGroups_None.
    rewrite <- assignedGroups_stored, mixin_removeGroup_stored.
    now apply filter_notListed_all. }
  split.
  { destruct (getAclRoles_cases this) as [[_ ->] | [Hne ->]]; congruence. }
  split.
  { destruct (getAclGroups_cases this) as [[_ ->] | [Hne ->]]; congruence. }
  split; [apply getAclRoles_None |].
  split; [apply getAclGroups_None |].
  split; [reflexivity |]. split; [reflexivity |].
  split; [reflexivity |]. split; [reflexivity |].
  split; [apply R; auto |].
  split; [apply G; auto |].
  split; [apply R | apply G].
Qed.

(** ** The service against the mixin *)

Lemma asServiceOutcome_bind (A B : Type) (m : Result A)
      (k : A -> Result B) :
  asServiceOutcome (x <- m ;; k x)
  = (x <- asServiceOutcome m ;; asServiceOutcome (k x)).
Proof. destruct m; reflexivity. Qed.

Section ServiceAgainstMixin.
Variable aclConfig : IAclConfig.t.
Variable this : ComposableACL.t.

Let service := BasicACLService.make aclConfig.

Lemma agree_getRole (r : string) :
  BasicACLService.getRole service r
  = asServiceOutcome (ComposableACL.getRole aclConfig this r).
Proof.
  unfold BasicACLService.getRole, ComposableACL.getRole. simpl.
  destruct (find _ _); reflexivity.
Qed.

Lemma agree_getGroup (g : string) :
  BasicACLService.getGroup service g
  = asServiceOutcome (ComposableACL.getGroup aclConfig this g).
Proof.
  unfold BasicACLService.getGroup, ComposableACL.getGroup. simpl.
  destruct (find _ _); reflexivity.
Qed.

Lemma agree_collectScopes (names acc : list string) :
  BasicACLService.collectScopes service acc names
  = asServiceOutcome (ComposableACL.collectScopes aclConfig this acc names).
Proof.
  revert acc. induction names as [| n rest IH]; intros acc; simpl.
  - reflexivity.
  - rewrite asServiceOutcome_bind, <- agree_getRole.
    destruct (BasicACLService.getRole service n); simpl; auto.
Qed.

Lemma agree_mapGetRole (names : list string) :
  BasicACLService.mapGetRole service names
  = asServiceOutcome (ComposableACL.mapGetRole aclConfig this names).
Proof.
  induction names as [| n rest IH]; simpl.
  - reflexivity.
  - rewrite asServiceOutcome_bind, <- agree_getRole.
    destruct (BasicACLService.getRole service n); simpl; auto.
    rewrite asServiceOutcome_bind, <- IH.
    destruct (BasicACLService.mapGetRole service rest); reflexivity.
Qed.

Lemma agree_getGroupRoles (group : StringOrGroup) :
  BasicACLService.getGroupRoles service group
  = asServiceOutcome (ComposableACL.getGroupRoles aclConfig this group).
Proof.
  unfold BasicACLService.getGroupRoles, ComposableACL.getGroupRoles.
  rewrite asServiceOutcome_bind. destruct group as [s | g]; simpl.
  - rewrite <- agree_getGroup.
    destruct (BasicACLService.getGroup service s); simpl; auto.
    apply agree_mapGetRole.
  - apply agree_mapGetRole.
Qed.

Lemma agree_getGroupScopes (group : StringOrGroup) :
  BasicACLService.getGroupScopes service group
  = asServiceOutcome (ComposableACL.getGroupScopes aclConfig this group).
Proof.
  unfold BasicACLService.getGroupScopes, ComposableACL.getGroupScopes.
  rewrite asServiceOutcome_bind, <- agree_getGroupRoles.
  destruct (BasicACLService.getGroupRoles service group); reflexivity.
Qed.

Lemma agree_getRoleScopesFromUser :
  BasicACLService.getRoleScopesFromUser ComposableACL.asEntity service this
  = asServiceOutcome (ComposableACL.getRoleScopesFromUser aclConfig this).
Proof.
  unfold BasicACLService.getRoleScopesFromUser,
    ComposableACL.getRoleScopesFromUser. simpl.
  destruct (ComposableACL.getAclRoles this); [| reflexivity].
  apply agree_collectScopes.
Qed.

End ServiceAgainstMixin.

(** Every outcome of the service on the mixin object, computed from the
    mixin's outcome: the same value, or the same message raised as a plain
    [Error]. *)
Lemma service_outcomes_from_mixin
        (aclConfig : IAclConfig.t) (this : ComposableACL.t)
        (r g : string) (names : StringOrArray) (name : string)
        (group : StringOrGroup) :
  (forall op,
      In op BasicACLService.operations -> In op ComposableACL.operations) /\
  (forall op,
      In op ComposableACL.operations ->
      In op BasicACLService.operations \/
      In op ["hasScope"; "hasScopes"; "hasRole"; "hasGroup"] \/
      In op ["getAclRoles"; "setAclRoles"; "getAclGroups"; "setAclGroups"]) /\
  BasicACLService.getConfig (BasicACLService.make aclConfig)
    = ComposableACL.getConfig aclConfig this /\
  BasicACLService.getRole (BasicACLService.make aclConfig) r
    = asServiceOutcome (ComposableACL.getRole aclConfig this r) /\
  BasicACLService.getGroup (BasicACLService.make aclConfig) g
    = asServiceOutcome (ComposableACL.getGroup aclConfig this g) /\
  BasicACLService.getDefaultGroup (BasicACLService.make aclConfig)
    = asServiceOutcome (ComposableACL.getDefaultGroup aclConfig this) /\
  BasicACLService.getRoleScopes (BasicACLService.make aclConfig) names
    = asServiceOutcome (ComposableACL.getRoleScopes aclConfig this names) /\
  BasicACLService.getRoleScopesFromUser
      ComposableACL.asEntity (BasicACLService.make aclConfig) this
    = asServiceOutcome (ComposableACL.getRoleScopesFromUser aclConfig this) /\
  BasicACLService.getGroupRoles (BasicACLService.make aclConfig) group
    = asServiceOutcome (ComposableACL.getGroupRoles aclConfig this group) /\
  BasicACLService.getGroupScopes (BasicACLService.make aclConfig) group
    = asServiceOutcome (ComposableACL.getGroupScopes aclConfig this group) /\
  BasicACLService.assignRoleToUser
      ComposableACL.asEntity (BasicACLService.make aclConfig) this names
    = Ok (ComposableACL.assignRoleToUser aclConfig this names) /\
  BasicACLService.appendRoleToUser
      ComposableACL.asEntity (BasicACLService.make aclConfig) this name
    = Ok (ComposableACL.appendRoleToUser aclConfig this name) /\
  BasicACLService.removeRoleFromUser
      ComposableACL.asEntity (BasicACLService.make aclConfig) this names
    = Ok (ComposableACL.removeRoleFromUser aclConfig this names) /\
  BasicACLService.assignGroupToUser
      ComposableACL.asEntity (BasicACLService.make aclConfig) this names
    = Ok (ComposableACL.assignGroupToUser aclConfig this names) /\
  BasicACLService.appendGroupToUser
      ComposableACL.asEntity (BasicACLService.make aclConfig) this name
    = Ok (ComposableACL.appendGroupToUser aclConfig this name) /\
  BasicACLService.removeGroupFromUser
      ComposableACL.asEntity (BasicACLService.make aclConfig) this names
    = Ok (ComposableACL.removeGroupFromUser aclConfig this names).
Proof.
  split.
  { intros op H. simpl in H. simpl.
    repeat (destruct H as [<- | H]; [tauto |]). destruct H. }
  split.
  { intros op H. simpl in H. simpl.
    repeat (destruct H as [<- | H]; [tauto |]). destruct H. }
  split; [reflexivity |].
  split; [apply agree_getRole |].
  split; [apply agree_getGroup |].
  split; [apply agree_getGroup |].
  split; [apply agree_collectScopes |].
  split; [apply agree_getRoleScopesFromUser |].
  split; [apply agree_getGroupRoles |].
  split; [apply agree_getGroupScopes |].
  repeat split.
Qed.

(** C2, where the given service falls short of it.  The README documents
    [aclService.hasScope(user, 'read:own')] on the service, and
    [BasicACLException] for all of the service's errors.  The mixin has
    the check ([hasScope], like [hasScopes], [hasRole] and [hasGroup]) and
    answers true on the README's entity; the service as given declares
    none of the four.  And where both have the operation, a failing lookup
    does not give the same result: [getRole("ghost")] raises a plain
    [Error] in the service and a [BasicACLException] in the mixin. *)
Lemma C2_service_lacks_the_checks :
  (In "hasScope" ComposableACL.operations /\
   ~ In "hasScope" BasicACLService.operations) /\
  ~ (forall op,
        In op ComposableACL.operations -> In op BasicACLService.operations) /\
  BasicACLService.getRole (BasicACLService.make exampleConfig) "ghost"
    = Throw (mkException JsError "Role ghost not found") /\
  ComposableACL.getRole exampleConfig ComposableACL.new "ghost"
    = Throw (mkException BasicACLException "Role ghost not found") /\
  BasicACLService.getRole (BasicACLService.make exampleConfig) "ghost"
    <> ComposableACL.getRole exampleConfig ComposableACL.new "ghost" /\
  ComposableACL.hasScope exampleConfig readmeUser "read:own" = Ok true /\
  ComposableACL.hasScopes exampleConfig readmeUser ["read:own"; "write:own"]
    = Ok true /\
  ComposableACL.hasRole exampleConfig readmeUser (Str "role_admin") = false /\
  ComposableACL.hasGroup exampleConfig readmeUser (Str "user") = true /\
  (forall op,
      In op ["hasScope"; "hasScopes"; "hasRole"; "hasGroup"] ->
      In op ComposableACL.operations /\
      ~ In op BasicACLService.operations).
Proof.
  assert (N : ~ In "hasScope" BasicACLService.operations).
  { simpl. intros H.
    repeat (destruct H as [H | H]; [discriminate H |]). exact H. }
  assert (Y : In "hasScope" ComposableACL.operations).
  { simpl. tauto. }
  split; [split; assumption |].
  split; [intros H; exact (N (H _ Y)) |].
  split; [reflexivity |]. split; [reflexivity |].
  split; [discriminate |].
  split; [reflexivity |]. split; [reflexivity |].
  split; [reflexivity |]. split; [reflexivity |].
  intros op H. simpl in H.
  repeat (destruct H as [<- | H];
          [split;
           [simpl; tauto
           | simpl; intros K;
             repeat (destruct K as [K | K]; [discriminate K |]); exact K]
          |]).
  destruct H.
Qed.

Lemma asServiceOutcome_same (A : Type) (m : Result A) :
  sameUpToErrorClass (asServiceOutcome m) m.
Proof. destruct m; simpl; reflexivity. Qed.

(** X21. What the service does declare, it computes as the mixin does:
    every method of the service is a method of the mixin, and on the mixin
    object each lookup and aggregation gives the same value in both, or
    raises in both with the same message; each of the six mutations
    returns and leaves the object exactly as the mixin's mutation does. *)
Theorem X21_shared_operations_agree
        (aclConfig : IAclConfig.t) (this : ComposableACL.t)
        (r g : string) (names : StringOrArray) (name : string)
        (group : StringOrGroup) :
  (forall op,
      In op BasicACLService.operations -> In op ComposableACL.operations) /\
  BasicACLService.getConfig (BasicACLService.make aclConfig)
    = ComposableACL.getConfig aclConfig this /\
  sameUpToErrorClass
    (BasicACLService.getRole (BasicACLService.make aclConfig) r)
    (ComposableACL.getRole aclConfig this r) /\
  sameUpToErrorClass
    (BasicACLService.getGroup (BasicACLService.make aclConfig) g)
    (ComposableACL.getGroup aclConfig this g) /\
  sameUpToErrorClass
    (BasicACLService.getDefaultGroup (BasicACLService.make aclConfig))
    (ComposableACL.getDefaultGroup aclConfig this) /\
  sameUpToErrorClass
    (BasicACLService.getRoleScopes (BasicACLService.make aclConfig) names)
    (ComposableACL.getRoleScopes aclConfig this names) /\
  sameUpToErrorClass
    (BasicACLService.getRoleScopesFromUser
       ComposableACL.asEntity (BasicACLService.make aclConfig) this)
    (ComposableACL.getRoleScopesFromUser aclConfig this) /\
  sameUpToErrorClass
    (BasicACLService.getGroupRoles (BasicACLService.make aclConfig) group)
    (ComposableACL.getGroupRoles aclConfig this group) /\
  sameUpToErrorClass
    (BasicACLService.getGroupScopes (BasicACLService.make aclConfig) group)
    (ComposableACL.getGroupScopes aclConfig this group) /\
  BasicACLService.assignRoleToUser
      ComposableACL.asEntity (BasicACLService.make aclConfig) this names
    = Ok (ComposableACL.assignRoleToUser aclConfig this names) /\
  BasicACLService.appendRoleToUser
      ComposableACL.asEntity (BasicACLService.make aclConfig) this name
    = Ok (ComposableACL.appendRoleToUser aclConfig this name) /\
  BasicACLService.removeRoleFromUser
      ComposableACL.asEntity (BasicACLService.make aclConfig) this names
    = Ok (ComposableACL.removeRoleFromUser aclConfig this names) /\
  BasicACLService.assignGroupToUser
      ComposableACL.asEntity (BasicACLService.make aclConfig) this names
    = Ok (ComposableACL.assignGroupToUser aclConfig this names) /\
  BasicACLService.appendGroupToUser
      ComposableACL.asEntity (BasicACLService.make aclConfig) this name
    = Ok (ComposableACL.appendGroupToUser aclConfig this name) /\
  BasicACLService.removeGroupFromUser
      ComposableACL.asEntity (BasicACLService.make aclConfig) this names
    = Ok (ComposableACL.removeGroupFromUser aclConfig this names).
Proof.
  split.
  { intros op H. simpl in H. simpl.
    repeat (destruct H as [<- | H]; [tauto |]). destruct H. }
  split; [reflexivity |].
  split; [rewrite (agree_getRole aclConfig this); apply asServiceOutcome_same |].
  split; [rewrite (agree_getGroup aclConfig this); apply asServiceOutcome_same |].
  split.
  { unfold BasicACLService.getDefaultGroup, ComposableACL.getDefaultGroup.
    simpl. rewrite (agree_getGroup aclConfig this).
    apply asServiceOutcome_same. }
  split.
  { unfold BasicACLService.getRoleScopes, ComposableACL.getRoleScopes.
    rewrite (agree_collectScopes aclConfig this).
    apply asServiceOutcome_same. }
  split.
  { rewrite (agree_getRoleScopesFromUser aclConfig this).
    apply asServiceOutcome_same. }
  split.
  { rewrite (agree_getGroupRoles aclConfig this).
    apply asServiceOutcome_same. }
  split.
  { rewrite (agree_getGroupScopes aclConfig this).
    apply asServiceOutcome_same. }
  repeat split.
Qed.

(** ** The end-to-end example of the README *)

Example readme_user_scopes :
  BasicACLService.getRoleScopesFromUser
    ComposableACL.asEntity (BasicACLService.make exampleConfig)
    (ComposableACL.make ["role_user"] ["user"])
  = Ok ["read:own"; "write:own"] /\
  ComposableACL.hasScope exampleConfig
    (ComposableACL.make ["role_user"] ["user"]) "read:own" = Ok true /\
  ComposableACL.hasScope exampleConfig
    (ComposableACL.make ["role_user"] ["user"]) "delete:all" = Ok false /\
  ComposableACL.hasScopes exampleConfig
    (ComposableACL.make ["role_user"] ["user"]) ["read:own"; "write:own"]
  = Ok true /\
  ComposableACL.hasRole exampleConfig
    (ComposableACL.make ["role_user"] ["user"]) (Str "role_admin") = false /\
  BasicACLService.getGroupScopes (BasicACLService.make exampleConfig)
                                 (GroupName "admin")
  = Ok ["read:all"; "write:all"; "delete:all"] /\
  ComposableACL.getRoleScopesFromUser exampleConfig
    (ComposableACL.assignRoleToUser exampleConfig ComposableACL.new
                                    (Arr ["role_admin"; "role_user"]))
  = Ok ["read:all"; "write:all"; "delete:all"; "read:own"; "write:own"].
Proof. repeat split. Qed.

(** * Further properties of the two classes *)

(** ** Group lookup *)

Lemma find_none_group_names (groups : list IAclGroup.t) (g : string) :
  find (fun x => String.eqb (IAclGroup.name x) g) groups = None <->
  ~ In g (map IAclGroup.name groups).
Proof.
  induction groups as [| a groups IH]; simpl.
  - split; auto.
  - destruct (String.eqb_spec (IAclGroup.name a) g) as [E | E].
    + split; [discriminate | intros H; elim H; now left].
    + rewrite IH. split; [intros H [H1 | H1]; auto | intros H H1; auto].
Qed.

Lemma find_group_firstNamed (groups : list IAclGroup.t) (g : string)
      (group : IAclGroup.t) :
  find (fun x => String.eqb (IAclGroup.name x) g) groups = Some group <->
  firstNamedGroup groups g group.
Proof.
  rewrite find_first_split. unfold firstNamedGroup.
  split; intros (pre & post & H & Hx & Hpre); exists pre, post;
    repeat split; auto.
  - now apply String.eqb_eq.
  - intros p Hp. apply String.eqb_neq. auto.
  - now apply String.eqb_eq.
  - intros p Hp. apply String.eqb_neq. auto.
Qed.

Lemma mixin_getGroup_Ok (aclConfig : IAclConfig.t) (this : ComposableACL.t)
      (g : string) (group : IAclGroup.t) :
  ComposableACL.getGroup aclConfig this g = Ok group <->
  firstNamedGroup (IAclConfig.groups aclConfig) g group.
Proof.
  rewrite <- find_group_firstNamed. unfold ComposableACL.getGroup.
  destruct (find _ _); split; intros H; try discriminate; congruence.
Qed.

Lemma mixin_getGroup_Throw (aclConfig : IAclConfig.t)
      (this : ComposableACL.t) (g : string) (e : Exception) :
  ComposableACL.getGroup aclConfig this g = Throw e <->
  ~ configuredGroup aclConfig g /\ e = groupNotFound BasicACLException g.
Proof.
  unfold configuredGroup. rewrite <- find_none_group_names.
  unfold ComposableACL.getGroup, groupNotFound.
  destruct (find _ _); split.
  - discriminate.
  - intros [H _]. discriminate.
  - intros H. injection H as <-. auto.
  - intros [_ ->]. reflexivity.
Qed.

Lemma asServiceOutcome_Ok (A : Type) (m : Result A) (a : A) :
  asServiceOutcome m = Ok a <-> m = Ok a.
Proof.
  destruct m; simpl; split; intros H; try discriminate; congruence.
Qed.

Lemma asServiceOutcome_Throw (A : Type) (m : Result A) (e : Exception) :
  asServiceOutcome m = Throw e <->
  exists e', m = Throw e' /\ e = mkException JsError (exn_message e').
Proof.
  destruct m as [a | e0]; simpl; split.
  - discriminate.
  - intros (e' & H & _). discriminate.
  - intros H. injection H as <-. now exists e0.
  - intros (e' & H & ->). now injection H as ->.
Qed.

Lemma service_getGroup_Ok (aclConfig : IAclConfig.t) (g : string)
      (group : IAclGroup.t) :
  BasicACLService.getGroup (BasicACLService.make aclConfig) g = Ok group <->
  firstNamedGroup (IAclConfig.groups aclConfig) g group.
Proof.
  rewrite (agree_getGroup aclConfig ComposableACL.new), asServiceOutcome_Ok.
  apply mixin_getGroup_Ok.
Qed.

Lemma service_getGroup_Throw (aclConfig : IAclConfig.t) (g : string)
      (e : Exception) :
  BasicACLService.getGroup (BasicACLService.make aclConfig) g = Throw e <->
  ~ configuredGroup aclConfig g /\ e = groupNotFound JsError g.
Proof.
  rewrite (agree_getGroup aclConfig ComposableACL.new),
    asServiceOutcome_Throw.
  split.
  - intros (e' & H & ->). apply mixin_getGroup_Throw in H.
    destruct H as [H ->]. auto.
  - intros [H ->]. exists (groupNotFound BasicACLException g). split; auto.
    apply mixin_getGroup_Throw. auto.
Qed.

Lemma configuredGroup_has_first (groups : list IAclGroup.t) (g : string) :
  In g (map IAclGroup.name groups) <->
  exists group, firstNamedGroup groups g group.
Proof.
  split.
  - intros H.
    destruct (find (fun x => String.eqb (IAclGroup.name x) g) groups) eqn:E.
    + exists t. now apply find_group_firstNamed.
    + apply find_none_group_names in E. contradiction.
  - intros (group & pre & post & -> & <- & _).
    rewrite map_app, in_app_iff. right. now left.
Qed.

(** X1. In both classes [getGroup] returns the first configured group of
    the given name, and raises "Group <name> not found" exactly when no
    configured group has that name. *)
Theorem X1_getGroup_first_or_not_found
        (aclConfig : IAclConfig.t) (this : ComposableACL.t) (g : string) :
  (forall group,
      BasicACLService.getGroup (BasicACLService.make aclConfig) g = Ok group
      <-> firstNamedGroup (IAclConfig.groups aclConfig) g group) /\
  (forall group,
      ComposableACL.getGroup aclConfig this g = Ok group <->
      firstNamedGroup (IAclConfig.groups aclConfig) g group) /\
  (configuredGroup aclConfig g <->
   exists group,
     BasicACLService.getGroup (BasicACLService.make aclConfig) g = Ok group /\
     ComposableACL.getGroup aclConfig this g = Ok group) /\
  (forall e,
      BasicACLService.getGroup (BasicACLService.make aclConfig) g = Throw e
      <-> ~ configuredGroup aclConfig g /\ e = groupNotFound JsError g) /\
  (forall e,
      ComposableACL.getGroup aclConfig this g = Throw e <->
      ~ configuredGroup aclConfig g /\
      e = groupNotFound BasicACLException g).
Proof.
  split; [intros group; apply service_getGroup_Ok |].
  split; [intros group; apply mixin_getGroup_Ok |].
  split.
  { unfold configuredGroup. rewrite configuredGroup_has_first. split.
    - intros (group & H). exists group. split.
      + now apply service_getGroup_Ok.
      + now apply mixin_getGroup_Ok.
    - intros (group & _ & H). exists group.
      now apply (mixin_getGroup_Ok aclConfig this). }
  split; [intros e; apply service_getGroup_Throw |].
  intros e. apply mixin_getGroup_Throw.
Qed.

(** X2. [getDefaultGroup] looks up [aclConfig.defaultGroup] at the time of
    the call: it returns the first configured group of that name, and a
    default that names no configured group (in particular with an empty
    group sequence) makes it raise "Group <defaultGroup> not found". *)
Theorem X2_getDefaultGroup_lazy_lookup
        (aclConfig : IAclConfig.t) (this : ComposableACL.t) :
  (forall group,
      BasicACLService.getDefaultGroup (BasicACLService.make aclConfig)
      = Ok group <->
      firstNamedGroup (IAclConfig.groups aclConfig)
                      (IAclConfig.defaultGroup aclConfig) group) /\
  (forall group,
      ComposableACL.getDefaultGroup aclConfig this = Ok group <->
      firstNamedGroup (IAclConfig.groups aclConfig)
                      (IAclConfig.defaultGroup aclConfig) group) /\
  (~ configuredGroup aclConfig (IAclConfig.defaultGroup aclConfig) <->
   BasicACLService.getDefaultGroup (BasicACLService.make aclConfig)
   = Throw (groupNotFound JsError (IAclConfig.defaultGroup aclConfig))) /\
  (~ configuredGroup aclConfig (IAclConfig.defaultGroup aclConfig) <->
   ComposableACL.getDefaultGroup aclConfig this
   = Throw (groupNotFound BasicACLException
                          (IAclConfig.defaultGroup aclConfig))) /\
  (IAclConfig.groups aclConfig = [] ->
   ComposableACL.getDefaultGroup aclConfig this
   = Throw (groupNotFound BasicACLException
                          (IAclConfig.defaultGroup aclConfig))).
Proof.
  unfold BasicACLService.getDefaultGroup, ComposableACL.getDefaultGroup.
  simpl.
  split; [intros group; apply service_getGroup_Ok |].
  split; [intros group; apply mixin_getGroup_Ok |].
  split.
  { rewrite service_getGroup_Throw. intuition. }
  split.
  { rewrite mixin_getGroup_Throw. intuition. }
  intros H. apply mixin_getGroup_Throw. split; auto.
  unfold configuredGroup. rewrite H. simpl. auto.
Qed.

(** ** Resolving lists of role names *)

Section ResolveNames.
Variable aclConfig : IAclConfig.t.
Variable this : ComposableACL.t.

Lemma mixin_getRole_cases (r : string) :
  (exists role,
      firstNamed (IAclConfig.roles aclConfig) r role /\
      configuredRole aclConfig r /\
      ComposableACL.getRole aclConfig this r = Ok role) \/
  (~ configuredRole aclConfig r /\
   ComposableACL.getRole aclConfig this r
   = Throw (roleNotFound BasicACLException r)).
Proof.
  destruct (ComposableACL.getRole aclConfig this r) as [role | e] eqn:E.
  - left. exists role. apply mixin_getRole_Ok in E. repeat split; auto.
    eapply firstNamed_configured; eauto.
  - right. apply mixin_getRole_Throw in E. destruct E as [H ->]. auto.
Qed.

Lemma mixin_mapGetRole_Ok (names : list string) (roles : list IAclRole.t) :
  ComposableACL.mapGetRole aclConfig this names = Ok roles <->
  resolveAll aclConfig names roles.
Proof.
  unfold resolveAll. revert roles.
  induction names as [| n rest IH]; intros roles; simpl.
  - split.
    + intros H. injection H as <-. constructor.
    + intros H. inversion H. reflexivity.
  - destruct (mixin_getRole_cases n) as [(role & F & C & ->) | [C ->]]; simpl.
    + destruct (ComposableACL.mapGetRole aclConfig this rest) as [rs | e];
        simpl.
      * split.
        -- intros H. injection H as <-. constructor; auto. now apply IH.
        -- intros H. inversion H as [| ? role' ? rs' F' Hrest]; subst.
           apply IH in Hrest. injection Hrest as <-.
           apply mixin_getRole_Ok with (this := this) in F.
           apply mixin_getRole_Ok with (this := this) in F'. congruence.
      * split; [discriminate |].
        intros H. inversion H as [| ? role' ? rs' F' Hrest]; subst.
        apply IH in Hrest. discriminate.
    + split; [discriminate |].
      intros H. inversion H as [| ? role' ? rs' F' Hrest]; subst.
      elim C. eapply firstNamed_configured; eauto.
Qed.

Lemma mixin_mapGetRole_Throw (names : list string) (e : Exception) :
  ComposableACL.mapGetRole aclConfig this names = Throw e <->
  exists r,
    firstUnconfigured aclConfig names r /\
    e = roleNotFound BasicACLException r.
Proof.
  induction names as [| n rest IH]; simpl.
  - split; [discriminate |].
    intros (r & (pre & post & H & _) & _). destruct pre; discriminate.
  - destruct (mixin_getRole_cases n) as [(role & F & C & ->) | [C ->]]; simpl.
    + destruct (ComposableACL.mapGetRole aclConfig this rest) as [rs | e0];
        simpl.
      * split; [discriminate |].
        intros (r & (pre & post & H & Hpre & Hr) & ->).
        destruct pre as [| p pre]; simpl in H; injection H as -> ->.
        -- contradiction.
        -- assert (X : Ok rs
                        = Throw (roleNotFound BasicACLException r)).
           { apply IH. exists r. split; auto. exists pre, post.
             repeat split; auto. intros q Hq. apply Hpre. now right. }
           discriminate X.
      * split.
        -- intros H. injection H as ->.
           destruct (proj1 IH eq_refl)
             as (r & (pre & post & -> & Hpre & Hr) & ->).
           exists r. split; auto. exists (n :: pre), post.
           repeat split; auto. intros q [<- | Hq]; auto.
        -- intros (r & (pre & post & H & Hpre & Hr) & ->).
           destruct pre as [| p pre]; simpl in H; injection H as -> ->.
           ++ contradiction.
           ++ apply IH. exists r. split; auto. exists pre, post.
              repeat split; auto. intros q Hq. apply Hpre. now right.
    + split.
      * intros H. injection H as <-. exists n. split; auto.
        exists [], rest. repeat split; auto. intros p [].
      * intros (r & (pre & post & H & Hpre & Hr) & ->).
        destruct pre as [| p pre]; simpl in H; injection H as -> ->.
        -- reflexivity.
        -- elim C. apply Hpre. now left.
Qed.

(** The accumulating loop of [getRoleScopes] computes what mapping the
    names through [getRole] and flattening the scopes computes. *)
Lemma mixin_collect_is_map_flat (names : list string) :
  ComposableACL.collectScopes aclConfig this [] names
  = (roles <- ComposableACL.mapGetRole aclConfig this names ;;
     Ok (concat (map IAclRole.scopes roles))).
Proof.
  induction names as [| n rest IH]; simpl.
  - reflexivity.
  - destruct (ComposableACL.getRole aclConfig this n) as [role | e];
      simpl; auto.
    rewrite mixin_collectScopes_acc, IH.
    destruct (ComposableACL.mapGetRole aclConfig this rest); reflexivity.
Qed.

Lemma mixin_getRoleScopes_Ok (names : list string) (scopes : list string) :
  ComposableACL.getRoleScopes aclConfig this (Arr names) = Ok scopes <->
  exists roles,
    resolveAll aclConfig names roles /\
    scopes = concat (map IAclRole.scopes roles).
Proof.
  unfold ComposableACL.getRoleScopes. simpl.
  rewrite mixin_collect_is_map_flat.
  destruct (ComposableACL.mapGetRole aclConfig this names) as [rs | e] eqn:E;
    simpl.
  - apply mixin_mapGetRole_Ok in E. split.
    + intros H. injection H as <-. now exists rs.
    + intros (roles & Hr & ->). apply mixin_mapGetRole_Ok in E, Hr.
      congruence.
  - split; [discriminate |]. intros (roles & Hr & _).
    apply mixin_mapGetRole_Ok in Hr. congruence.
Qed.

Lemma mixin_getRoleScopes_Throw (names : list string) (e : Exception) :
  ComposableACL.getRoleScopes aclConfig this (Arr names) = Throw e <->
  exists r,
    firstUnconfigured aclConfig names r /\
    e = roleNotFound BasicACLException r.
Proof.
  unfold ComposableACL.getRoleScopes. simpl.
  rewrite mixin_collect_is_map_flat, <- mixin_mapGetRole_Throw.
  destruct (ComposableACL.mapGetRole aclConfig this names); simpl;
    split; intros H; try discriminate; congruence.
Qed.

End ResolveNames.

Lemma resolveAll_configured (aclConfig : IAclConfig.t)
      (names : list string) :
  (exists roles, resolveAll aclConfig names roles) <->
  forall r, In r names -> configuredRole aclConfig r.
Proof.
  unfold resolveAll. induction names as [| n rest IH].
  - split.
    + intros _ r [].
    + intros _. exists []. constructor.
  - split.
    + intros (roles & H) r Hr.
      inversion H as [| ? role ? rs F Hrest]; subst.
      destruct Hr as [<- | Hr].
      * eapply firstNamed_configured; eauto.
      * apply (proj1 IH); auto. now exists rs.
    + intros H.
      destruct (configured_has_first _ _ (H n (or_introl eq_refl)))
        as [role F].
      destruct (proj2 IH) as [rs Hrs].
      * intros r Hr. apply H. now right.
      * exists (role :: rs). now constructor.
Qed.

Lemma resolveAll_names (aclConfig : IAclConfig.t) (names : list string)
      (roles : list IAclRole.t) :
  resolveAll aclConfig names roles -> map IAclRole.name roles = names.
Proof.
  unfold resolveAll. induction 1 as [| n role names roles F _ IH]; simpl.
  - reflexivity.
  - destruct F as (pre & post & _ & -> & _). now rewrite IH.
Qed.

(** X3. [getRoleScopes] returns exactly when every given name is a
    configured role, and then the result is the scopes of the roles the
    names resolve to, concatenated in the order of the names; otherwise it
    raises "Role <name> not found" for the first name that is not
    configured.  The empty list of names gives the empty list of scopes. *)
Theorem X3_getRoleScopes_all_or_first_missing
        (aclConfig : IAclConfig.t) (this : ComposableACL.t)
        (names : list string) :
  (forall scopes,
      ComposableACL.getRoleScopes aclConfig this (Arr names) = Ok scopes <->
      exists roles,
        resolveAll aclConfig names roles /\
        scopes = concat (map IAclRole.scopes roles)) /\
  (forall scopes,
      BasicACLService.getRoleScopes (BasicACLService.make aclConfig)
                                    (Arr names) = Ok scopes <->
      exists roles,
        resolveAll aclConfig names roles /\
        scopes = concat (map IAclRole.scopes roles)) /\
  ((exists scopes,
       ComposableACL.getRoleScopes aclConfig this (Arr names) = Ok scopes)
   <-> forall r, In r names -> configuredRole aclConfig r) /\
  (forall e,
      ComposableACL.getRoleScopes aclConfig this (Arr names) = Throw e <->
      exists r,
        firstUnconfigured aclConfig names r /\
        e = roleNotFound BasicACLException r) /\
  (forall e,
      BasicACLService.getRoleScopes (BasicACLService.make aclConfig)
                                    (Arr names) = Throw e <->
      exists r,
        firstUnconfigured aclConfig names r /\
        e = roleNotFound JsError r) /\
  ComposableACL.getRoleScopes aclConfig this (Arr []) = Ok [] /\
  BasicACLService.getRoleScopes (BasicACLService.make aclConfig) (Arr [])
  = Ok [].
Proof.
  assert (A : BasicACLService.getRoleScopes (BasicACLService.make aclConfig)
                                            (Arr names)
              = asServiceOutcome
                  (ComposableACL.getRoleScopes aclConfig this (Arr names))).
  { apply agree_collectScopes. }
  split; [intros scopes; apply mixin_getRoleScopes_Ok |].
  split.
  { intros scopes. rewrite A, asServiceOutcome_Ok.
    apply mixin_getRoleScopes_Ok. }
  split.
  { rewrite <- resolveAll_configured. split.
    - intros (scopes & H). apply mixin_getRoleScopes_Ok in H.
      destruct H as (roles & H & _). now exists roles.
    - intros (roles & H). exists (concat (map IAclRole.scopes roles)).
      apply mixin_getRoleScopes_Ok. now exists roles. }
  split; [intros e; apply mixin_getRoleScopes_Throw |].
  split; [| split; reflexivity].
  intros e. rewrite A, asServiceOutcome_Throw. split.
  - intros (e' & H & ->). apply mixin_getRoleScopes_Throw in H.
    destruct H as (r & H & ->). now exists r.
  - intros (r & H & ->). exists (roleNotFound BasicACLException r).
    split; auto. apply mixin_getRoleScopes_Throw. now exists r.
Qed.

(** X4. [getRoleScopes] distributes over concatenation of name lists: the
    scopes of [l1 ++ l2] are those of [l1] followed by those of [l2], and
    if either part raises, the whole raises the error of the first part
    that does. *)
Theorem X4_getRoleScopes_over_append
        (aclConfig : IAclConfig.t) (this : ComposableACL.t)
        (l1 l2 : list string) :
  BasicACLService.getRoleScopes (BasicACLService.make aclConfig)
                                (Arr (l1 ++ l2))
  = (a <- BasicACLService.getRoleScopes (BasicACLService.make aclConfig)
                                        (Arr l1) ;;
     b <- BasicACLService.getRoleScopes (BasicACLService.make aclConfig)
                                        (Arr l2) ;;
     Ok (a ++ b)) /\
  ComposableACL.getRoleScopes aclConfig this (Arr (l1 ++ l2))
  = (a <- ComposableACL.getRoleScopes aclConfig this (Arr l1) ;;
     b <- ComposableACL.getRoleScopes aclConfig this (Arr l2) ;;
     Ok (a ++ b)).
Proof.
  split.
  - apply service_getRoleScopes_app.
  - apply mixin_getRoleScopes_app.
Qed.

(** ** Groups to roles to scopes *)

Lemma service_getGroupRoles_value_Throw (aclConfig : IAclConfig.t)
      (g : IAclGroup.t) (e : Exception) :
  BasicACLService.getGroupRoles (BasicACLService.make aclConfig)
                                (GroupValue g) = Throw e <->
  exists r,
    firstUnconfigured aclConfig (IAclGroup.roles g) r /\
    e = roleNotFound JsError r.
Proof.
  rewrite (agree_getGroupRoles aclConfig ComposableACL.new),
    asServiceOutcome_Throw.
  split.
  - intros (e' & H & ->).
    apply (mixin_mapGetRole_Throw aclConfig ComposableACL.new) in H.
    destruct H as (r & H & ->). now exists r.
  - intros (r & H & ->). exists (roleNotFound BasicACLException r).
    split; auto.
    apply (mixin_mapGetRole_Throw aclConfig ComposableACL.new).
    now exists r.
Qed.

(** X5. In both classes [getGroupRoles] on a group value consults only the
    role sequence: it returns the roles the group's role names resolve to,
    one per name and in the same order, and raises "Role <name> not found"
    for the first dangling reference and in no other case.  On a group
    name it first looks the group up: an unknown group raises "Group
    <name> not found" before any role is resolved, and a known one gives
    what the call on the first group of that name gives. *)
Theorem X5_getGroupRoles_resolves_in_order
        (aclConfig : IAclConfig.t) (this : ComposableACL.t)
        (g : IAclGroup.t) (name : string) :
  (forall roles,
      ComposableACL.getGroupRoles aclConfig this (GroupValue g) = Ok roles
      <-> resolveAll aclConfig (IAclGroup.roles g) roles) /\
  (forall roles,
      BasicACLService.getGroupRoles (BasicACLService.make aclConfig)
                                    (GroupValue g) = Ok roles
      <-> resolveAll aclConfig (IAclGroup.roles g) roles) /\
  (forall roles,
      ComposableACL.getGroupRoles aclConfig this (GroupValue g) = Ok roles ->
      map IAclRole.name roles = IAclGroup.roles g) /\
  (forall roles,
      BasicACLService.getGroupRoles (BasicACLService.make aclConfig)
                                    (GroupValue g) = Ok roles ->
      map IAclRole.name roles = IAclGroup.roles g) /\
  (forall e,
      ComposableACL.getGroupRoles aclConfig this (GroupValue g) = Throw e <->
      exists r,
        firstUnconfigured aclConfig (IAclGroup.roles g) r /\
        e = roleNotFound BasicACLException r) /\
  (forall e,
      BasicACLService.getGroupRoles (BasicACLService.make aclConfig)
                                    (GroupValue g) = Throw e <->
      exists r,
        firstUnconfigured aclConfig (IAclGroup.roles g) r /\
        e = roleNotFound JsError r) /\
  (~ configuredGroup aclConfig name ->
   ComposableACL.getGroupRoles aclConfig this (GroupName name)
   = Throw (groupNotFound BasicACLException name)) /\
  (~ configuredGroup aclConfig name ->
   BasicACLService.getGroupRoles (BasicACLService.make aclConfig)
                                 (GroupName name)
   = Throw (groupNotFound JsError name)) /\
  (forall group,
      firstNamedGroup (IAclConfig.groups aclConfig) name group ->
      ComposableACL.getGroupRoles aclConfig this (GroupName name)
      = ComposableACL.getGroupRoles aclConfig this (GroupValue group)) /\
  (forall group,
      firstNamedGroup (IAclConfig.groups aclConfig) name group ->
      BasicACLService.getGroupRoles (BasicACLService.make aclConfig)
                                    (GroupName name)
      = BasicACLService.getGroupRoles (BasicACLService.make aclConfig)
                                      (GroupValue group)).
Proof.
  assert (SOk : forall roles,
             BasicACLService.getGroupRoles (BasicACLService.make aclConfig)
                                           (GroupValue g) = Ok roles
             <-> resolveAll aclConfig (IAclGroup.roles g) roles).
  { intros roles. rewrite (agree_getGroupRoles aclConfig this).
    rewrite asServiceOutcome_Ok. apply mixin_mapGetRole_Ok. }
  split; [intros roles; apply mixin_mapGetRole_Ok |].
  split; [exact SOk |].
  split.
  { intros roles H. apply mixin_mapGetRole_Ok in H.
    now apply resolveAll_names in H. }
  split.
  { intros roles H. apply SOk in H. now apply resolveAll_names in H. }
  split; [intros e; apply mixin_mapGetRole_Throw |].
  split; [intros e; apply service_getGroupRoles_value_Throw |].
  split.
  { intros H. unfold ComposableACL.getGroupRoles.
    assert (E : ComposableACL.getGroup aclConfig this name
                = Throw (groupNotFound BasicACLException name)).
    { apply mixin_getGroup_Throw. auto. }
    rewrite E. reflexivity. }
  split.
  { intros H. unfold BasicACLService.getGroupRoles.
    assert (E : BasicACLService.getGroup (BasicACLService.make aclConfig)
                                         name
                = Throw (groupNotFound JsError name)).
    { apply service_getGroup_Throw. auto. }
    rewrite E. reflexivity. }
  split.
  { intros group H. apply mixin_getGroup_Ok with (this := this) in H.
    unfold ComposableACL.getGroupRoles. rewrite H. reflexivity. }
  intros group H. apply service_getGroup_Ok in H.
  unfold BasicACLService.getGroupRoles. rewrite H. reflexivity.
Qed.

Lemma mixin_getGroupScopes_value (aclConfig : IAclConfig.t)
      (this : ComposableACL.t) (g : IAclGroup.t) :
  ComposableACL.getGroupScopes aclConfig this (GroupValue g)
  = ComposableACL.getRoleScopes aclConfig this (Arr (IAclGroup.roles g)).
Proof.
  unfold ComposableACL.getGroupScopes, ComposableACL.getGroupRoles,
    ComposableACL.getRoleScopes.
  simpl. now rewrite mixin_collect_is_map_flat.
Qed.

(** X6. The scopes of a group are the scopes of its role names:
    [getGroupScopes(group)] gives what [getRoleScopes(group.roles)] gives,
    value or error, in both classes; given a name, the group is looked up
    first. *)
Theorem X6_getGroupScopes_is_getRoleScopes
        (aclConfig : IAclConfig.t) (this : ComposableACL.t)
        (g : IAclGroup.t) (name : string) :
  ComposableACL.getGroupScopes aclConfig this (GroupValue g)
  = ComposableACL.getRoleScopes aclConfig this (Arr (IAclGroup.roles g)) /\
  BasicACLService.getGroupScopes (BasicACLService.make aclConfig)
                                 (GroupValue g)
  = BasicACLService.getRoleScopes (BasicACLService.make aclConfig)
                                  (Arr (IAclGroup.roles g)) /\
  ComposableACL.getGroupScopes aclConfig this (GroupName name)
  = (group <- ComposableACL.getGroup aclConfig this name ;;
     ComposableACL.getRoleScopes aclConfig this
                                 (Arr (IAclGroup.roles group))) /\
  BasicACLService.getGroupScopes (BasicACLService.make aclConfig)
                                 (GroupName name)
  = (group <- BasicACLService.getGroup (BasicACLService.make aclConfig)
                                       name ;;
     BasicACLService.getRoleScopes (BasicACLService.make aclConfig)
                                   (Arr (IAclGroup.roles group))).
Proof.
  assert (S : forall grp,
             BasicACLService.getGroupScopes (BasicACLService.make aclConfig)
                                            (GroupValue grp)
             = BasicACLService.getRoleScopes
                 (BasicACLService.make aclConfig)
                 (Arr (IAclGroup.roles grp))).
  { intros grp. rewrite (agree_getGroupScopes aclConfig this).
    rewrite mixin_getGroupScopes_value. symmetry.
    apply (agree_collectScopes aclConfig this). }
  split; [apply mixin_getGroupScopes_value |].
  split; [apply S |].
  split.
  - unfold ComposableACL.getGroupScopes at 1,
      ComposableACL.getGroupRoles at 1.
    destruct (ComposableACL.getGroup aclConfig this name) as [grp | e];
      simpl; auto.
    apply (mixin_getGroupScopes_value aclConfig this grp).
  - unfold BasicACLService.getGroupScopes at 1,
      BasicACLService.getGroupRoles at 1.
    destruct (BasicACLService.getGroup (BasicACLService.make aclConfig) name)
      as [grp | e]; simpl; auto.
    apply (S grp).
Qed.

(** ** The scopes of the entity *)

Lemma mixin_getRoleScopesFromUser_assigned (aclConfig : IAclConfig.t)
      (this : ComposableACL.t) :
  ComposableACL.getRoleScopesFromUser aclConfig this
  = ComposableACL.getRoleScopes aclConfig this (Arr (assignedRoles this)).
Proof.
  unfold ComposableACL.getRoleScopesFromUser, assignedRoles.
  destruct (ComposableACL.getAclRoles this); reflexivity.
Qed.

(** X7. [getRoleScopesFromUser] is [getRoleScopes] over the entity's role
    names: a getter that returns null and a getter that returns the empty
    list both give the empty list of scopes, a getter that raises has its
    error passed on, and the call returns exactly when every assigned name
    is a configured role. *)
Theorem X7_getRoleScopesFromUser_over_assigned
        (aclConfig : IAclConfig.t) (this : ComposableACL.t)
        (S : Type) (data : IAccessControlEntity.t S)
        (service : BasicACLService.t) (st : S) :
  ComposableACL.getRoleScopesFromUser aclConfig this
  = ComposableACL.getRoleScopes aclConfig this (Arr (assignedRoles this)) /\
  ((exists scopes,
       ComposableACL.getRoleScopesFromUser aclConfig this = Ok scopes) <->
   forall r, In r (assignedRoles this) -> configuredRole aclConfig r) /\
  (ComposableACL._aclRoles this = [] ->
   ComposableACL.getRoleScopesFromUser aclConfig this = Ok []) /\
  BasicACLService.getRoleScopesFromUser data service st
  = (got <- IAccessControlEntity.getAclRoles data st ;;
     BasicACLService.getRoleScopes service (Arr (orEmpty got))) /\
  (IAccessControlEntity.getAclRoles data st = Ok None ->
   BasicACLService.getRoleScopesFromUser data service st = Ok []) /\
  (IAccessControlEntity.getAclRoles data st = Ok (Some []) ->
   BasicACLService.getRoleScopesFromUser data service st = Ok []) /\
  (forall e,
      IAccessControlEntity.getAclRoles data st = Throw e ->
      BasicACLService.getRoleScopesFromUser data service st = Throw e).
Proof.
  split; [apply mixin_getRoleScopesFromUser_assigned |].
  split.
  { rewrite mixin_getRoleScopesFromUser_assigned, <- resolveAll_configured.
    split.
    - intros (scopes & H). apply mixin_getRoleScopes_Ok in H.
      destruct H as (roles & H & _). now exists roles.
    - intros (roles & H). exists (concat (map IAclRole.scopes roles)).
      apply mixin_getRoleScopes_Ok. now exists roles. }
  split.
  { intros H. rewrite mixin_getRoleScopesFromUser_assigned.
    rewrite assignedRoles_stored, H. reflexivity. }
  unfold BasicACLService.getRoleScopesFromUser.
  split.
  { destruct (IAccessControlEntity.getAclRoles data st) as [[l |] | e];
      reflexivity. }
  split; [intros ->; reflexivity |].
  split; [intros ->; reflexivity |].
  intros e ->. reflexivity.
Qed.

Lemma includes_app (xs ys : list string) (x : string) :
  includes (xs ++ ys) x = includes xs x || includes ys x.
Proof. unfold includes. apply existsb_app. Qed.

Lemma hasScopeLoop_resolved (aclConfig : IAclConfig.t)
      (this : ComposableACL.t) (scope : string) (names : list string)
      (roles : list IAclRole.t) :
  ComposableACL.mapGetRole aclConfig this names = Ok roles ->
  ComposableACL.hasScopeLoop aclConfig this names scope
  = Ok (includes (concat (map IAclRole.scopes roles)) scope).
Proof.
  revert roles. induction names as [| n rest IH]; intros roles; simpl.
  - intros H. injection H as <-. reflexivity.
  - destruct (ComposableACL.getRole aclConfig this n) as [role | e];
      simpl; [| discriminate].
    destruct (ComposableACL.mapGetRole aclConfig this rest) as [rs | e];
      simpl; [| discriminate].
    intros H. injection H as <-. simpl. rewrite includes_app.
    destruct (includes (IAclRole.scopes role) scope); simpl; auto.
Qed.

(** X8. Whenever [getRoleScopesFromUser] returns a list of scopes,
    [hasScope] is membership in that list and [hasScopes] is membership of
    every requested scope: the checks then never raise. *)
Theorem X8_checks_agree_with_user_scopes
        (aclConfig : IAclConfig.t) (this : ComposableACL.t)
        (scopes : list string) :
  ComposableACL.getRoleScopesFromUser aclConfig this = Ok scopes ->
  (forall scope,
      ComposableACL.hasScope aclConfig this scope
      = Ok (includes scopes scope)) /\
  (forall wanted,
      ComposableACL.hasScopes aclConfig this wanted
      = Ok (forallb (includes scopes) wanted)).
Proof.
  intros H.
  assert (One : forall scope,
             ComposableACL.hasScope aclConfig this scope
             = Ok (includes scopes scope)).
  { intros scope. rewrite mixin_getRoleScopesFromUser_assigned in H.
    unfold ComposableACL.getRoleScopes in H. simpl in H.
    rewrite mixin_collect_is_map_flat in H.
    destruct (ComposableACL.mapGetRole aclConfig this (assignedRoles this))
      as [roles | e] eqn:E; simpl in H; [| discriminate].
    injection H as <-. unfold ComposableACL.hasScope.
    now apply hasScopeLoop_resolved. }
  split; [exact One |].
  induction wanted as [| w rest IH]; simpl.
  - reflexivity.
  - rewrite One. simpl. destruct (includes scopes w); simpl; auto.
Qed.

(** X8 on an object holding both roles of the README's configuration. *)
Lemma X8_checks_agree_with_user_scopes_example :
  (forall scope,
      ComposableACL.hasScope
        exampleConfig (ComposableACL.make ["role_admin"; "role_user"] [])
        scope
      = Ok (includes ["read:all"; "write:all"; "delete:all";
                      "read:own"; "write:own"] scope)) /\
  (forall wanted,
      ComposableACL.hasScopes
        exampleConfig (ComposableACL.make ["role_admin"; "role_user"] [])
        wanted
      = Ok (forallb (includes ["read:all"; "write:all"; "delete:all";
                               "read:own"; "write:own"]) wanted)).
Proof.
  apply (@X8_checks_agree_with_user_scopes
           exampleConfig (ComposableACL.make ["role_admin"; "role_user"] [])
           ["read:all"; "write:all"; "delete:all"; "read:own"; "write:own"]).
  reflexivity.
Defined.

(** The converse does not hold: a check can return although the scope list
    cannot be built, because the check stops at the first grant. *)
Example hasScope_returns_where_scopes_raise :
  ComposableACL.hasScope
    exampleConfig (ComposableACL.make ["role_user"; "ghost"] []) "read:own"
  = Ok true /\
  ComposableACL.getRoleScopesFromUser
    exampleConfig (ComposableACL.make ["role_user"; "ghost"] [])
  = Throw (roleNotFound BasicACLException "ghost").
Proof. split; reflexivity. Qed.

(** ** Group checks *)

(** X9. [hasGroup] is true exactly when every name of the normalised input
    is among the object's assigned group names; it is true for the empty
    input, and neither the configuration nor the role list plays a part,
    so a name that is not a configured group is answered like any
    other. *)
Theorem X9_hasGroup_all_assigned
        (aclConfig : IAclConfig.t) (this : ComposableACL.t)
        (groups : StringOrArray) :
  (ComposableACL.hasGroup aclConfig this groups = true <->
   forall g, In g (toArray groups) -> In g (assignedGroups this)) /\
  ComposableACL.hasGroup aclConfig this (Arr []) = true /\
  (forall x,
      ComposableACL.hasGroup aclConfig this (Str x)
      = includes (assignedGroups this) x) /\
  (forall otherConfig otherRoles,
      ComposableACL.hasGroup
        otherConfig
        (ComposableACL.make otherRoles (ComposableACL._aclGroups this))
        groups
      = ComposableACL.hasGroup aclConfig this groups).
Proof.
  unfold ComposableACL.hasGroup. fold (assignedGroups this).
  split; [apply allIncluded_spec |].
  split; [reflexivity |].
  split.
  { intros x. simpl. now destruct (includes (assignedGroups this) x). }
  intros otherConfig otherRoles.
  fold (assignedGroups
          (ComposableACL.make otherRoles (ComposableACL._aclGroups this))).
  now rewrite !assignedGroups_stored.
Qed.

(** ** Appending *)



Lemma mixin_appendRole_stored (aclConfig : IAclConfig.t)
      (this : ComposableACL.t) (role : string) :
  assignedRoles (ComposableACL.appendRoleToUser aclConfig this role)
  = assignedRoles this ++ [role].
Proof.
  rewrite assignedRoles_stored. reflexivity.
Qed.


Lemma hasRole_spec (aclConfig : IAclConfig.t) (this : ComposableACL.t)
      (wanted : StringOrArray) :
  ComposableACL.hasRole aclConfig this wanted = true <->
  forall r, In r (toArray wanted) -> In r (assignedRoles this).
Proof.
  unfold ComposableACL.hasRole. fold (assignedRoles this).
  apply allIncluded_spec.
Qed.

Lemma hasGroup_spec (aclConfig : IAclConfig.t) (this : ComposableACL.t)
      (wanted : StringOrArray) :
  ComposableACL.hasGroup aclConfig this wanted = true <->
  forall g, In g (toArray wanted) -> In g (assignedGroups this).
Proof.
  unfold ComposableACL.hasGroup. fold (assignedGroups this).
  apply allIncluded_spec.
Qed.



(** ** Mutations of the group list *)

Lemma mixin_replacesGroups : replacesGroups ComposableACL.asEntity.
Proof.
  intros groups st st' H. simpl in H. injection H as <-.
  unfold currentGroups. simpl.
  unfold ComposableACL.getAclGroups, ComposableACL.setAclGroups. simpl.
  destruct groups; reflexivity.
Qed.

(** X12. [assignGroupToUser] replaces the group list by the normalised
    input whatever was stored before, leaves the role list alone, and
    changes nothing when repeated; afterwards [hasGroup] holds exactly of
    the inputs whose names all occur in what was assigned.  The service
    only calls the entity's group setter with the normalised input. *)
Theorem X12_assignGroupToUser_replaces
        (aclConfig : IAclConfig.t) (this : ComposableACL.t)
        (group : StringOrArray) :
  assignedGroups (ComposableACL.assignGroupToUser aclConfig this group)
    = toArray group /\
  ComposableACL._aclRoles (ComposableACL.assignGroupToUser aclConfig this group)
    = ComposableACL._aclRoles this /\
  ComposableACL.assignGroupToUser
      aclConfig (ComposableACL.assignGroupToUser aclConfig this group) group
    = ComposableACL.assignGroupToUser aclConfig this group /\
  (forall wanted,
      ComposableACL.hasGroup
        aclConfig (ComposableACL.assignGroupToUser aclConfig this group)
        wanted = true <->
      forall g, In g (toArray wanted) -> In g (toArray group)) /\
  (forall (S : Type) (data : IAccessControlEntity.t S) service st,
      BasicACLService.assignGroupToUser data service st group
      = IAccessControlEntity.setAclGroups data (toArray group) st) /\
  (forall (S : Type) (data : IAccessControlEntity.t S) service st st1 st2,
      replacesGroups data ->
      BasicACLService.assignGroupToUser data service st group = Ok st1 ->
      BasicACLService.assignGroupToUser data service st1 group = Ok st2 ->
      currentGroups data st1 = Ok (toArray group) /\
      currentGroups data st2 = Ok (toArray group)).
Proof.
  assert (Hst : assignedGroups
                  (ComposableACL.assignGroupToUser aclConfig this group)
                = toArray group).
  { now rewrite assignedGroups_stored. }
  split; [exact Hst |].
  split; [reflexivity |].
  split; [reflexivity |].
  split.
  { intros wanted. rewrite hasGroup_spec, Hst. tauto. }
  split; [reflexivity |].
  intros S data service st st1 st2 Hset H1 H2. split.
  - exact (Hset _ _ _ H1).
  - exact (Hset _ _ _ H2).
Qed.

(** X13. [removeGroupFromUser] writes back the previous group list (null
    read as empty) without the names of the normalised input: the new
    list is a subsequence of the old one holding exactly the old names
    that are not in the input, each as often as before, and the role list
    is untouched.  Afterwards [hasGroup] is false for every name of the
    input and true for every name that was assigned and is not in the
    input. *)
Theorem X13_removeGroupFromUser_filters
        (aclConfig : IAclConfig.t) (this : ComposableACL.t)
        (group : StringOrArray) :
  assignedGroups (ComposableACL.removeGroupFromUser aclConfig this group)
    = filter (notListed (toArray group)) (assignedGroups this) /\
  Subseq (assignedGroups
            (ComposableACL.removeGroupFromUser aclConfig this group))
         (assignedGroups this) /\
  (forall g,
      In g (assignedGroups
              (ComposableACL.removeGroupFromUser aclConfig this group)) <->
      In g (assignedGroups this) /\ ~ In g (toArray group)) /\
  (forall g,
      ~ In g (toArray group) ->
      count_occ string_dec
                (assignedGroups
                   (ComposableACL.removeGroupFromUser aclConfig this group)) g
      = count_occ string_dec (assignedGroups this) g) /\
  ComposableACL._aclRoles
      (ComposableACL.removeGroupFromUser aclConfig this group)
    = ComposableACL._aclRoles this /\
  (forall g,
      In g (toArray group) ->
      ComposableACL.hasGroup
        aclConfig (ComposableACL.removeGroupFromUser aclConfig this group)
        (Str g) = false) /\
  (forall g,
      In g (assignedGroups this) -> ~ In g (toArray group) ->
      ComposableACL.hasGroup
        aclConfig (ComposableACL.removeGroupFromUser aclConfig this group)
        (Str g) = true) /\
  (forall (S : Type) (data : IAccessControlEntity.t S) service st st'
          previous,
      replacesGroups data ->
      currentGroups data st = Ok previous ->
      BasicACLService.removeGroupFromUser data service st group = Ok st' ->
      currentGroups data st'
      = Ok (filter (notListed (toArray group)) previous)).
Proof.
  pose proof (mixin_removeGroup_stored aclConfig this group) as Hst.
  assert (Hmem : forall g,
             In g (assignedGroups
                     (ComposableACL.removeGroupFromUser aclConfig this group))
             <-> In g (assignedGroups this) /\ ~ In g (toArray group)).
  { intros g. rewrite Hst, filter_In, notListed_true. tauto. }
  assert (One : forall that g,
             ComposableACL.hasGroup aclConfig that (Str g)
             = includes (assignedGroups that) g).
  { intros that g. unfold ComposableACL.hasGroup.
    fold (assignedGroups that). simpl.
    now destruct (includes (assignedGroups that) g). }
  split; [exact Hst |].
  split; [rewrite Hst; apply filter_Subseq |].
  split; [exact Hmem |].
  split.
  { intros g Hg. rewrite Hst. apply filter_count_kept.
    now apply notListed_true. }
  split; [reflexivity |].
  split.
  { intros g Hg. rewrite One. apply includes_not_In. rewrite Hmem. tauto. }
  split.
  { intros g Hg Hn. rewrite One. apply includes_In. rewrite Hmem. tauto. }
  intros S data service st st' previous Hset Hprev Hrm.
  unfold BasicACLService.removeGroupFromUser, currentGroups in *.
  destruct (IAccessControlEntity.getAclGroups data st) as [got | e];
    simpl in *; [| discriminate].
  injection Hprev as <-. exact (Hset _ _ _ Hrm).
Qed.

(** ** How removals compose *)

Lemma notListed_app (a b : list string) (r : string) :
  notListed (a ++ b) r = notListed a r && notListed b r.
Proof.
  unfold notListed. rewrite includes_app.
  destruct (includes a r), (includes b r); reflexivity.
Qed.

Lemma filter_notListed_twice (a b l : list string) :
  filter (notListed b) (filter (notListed a) l)
  = filter (notListed (a ++ b)) l.
Proof.
  induction l as [| x l IH]; simpl; auto.
  rewrite notListed_app. destruct (notListed a x); simpl.
  - destruct (notListed b x); simpl; now rewrite IH.
  - exact IH.
Qed.

Lemma filter_notListed_none (a l : list string) :
  (forall r, In r a -> ~ In r l) -> filter (notListed a) l = l.
Proof.
  intros H. induction l as [| x l IH]; simpl; auto.
  destruct (notListed a x) eqn:E.
  - rewrite IH; auto. intros r Hr Hin. apply (H r Hr). now right.
  - exfalso. assert (N : ~ ~ In x a).
    { intros N. apply notListed_true in N. congruence. }
    apply N. intros Hx. apply (H x Hx). now left.
Qed.

Lemma filter_ext_in_bool (f g : string -> bool) (l : list string) :
  (forall x, f x = g x) -> filter f l = filter g l.
Proof.
  intros H. induction l as [| x l IH]; simpl; auto.
  rewrite H, IH. reflexivity.
Qed.

Lemma mixin_removeRole_object (aclConfig : IAclConfig.t)
      (this : ComposableACL.t) (role : StringOrArray) :
  ComposableACL.removeRoleFromUser aclConfig this role
  = ComposableACL.make
      (filter (notListed (toArray role)) (ComposableACL._aclRoles this))
      (ComposableACL._aclGroups this).
Proof.
  unfold ComposableACL.removeRoleFromUser. fold (assignedRoles this).
  rewrite assignedRoles_stored. reflexivity.
Qed.

(** X14. Removals of roles compose like set differences: removing [a] and
    then [b] is removing both at once, the order of two removals does not
    matter, a removal repeated changes nothing more, and removing names
    that are not assigned (in particular the empty list) leaves the role
    list as it was.  Removing a name just appended undoes the append when
    the name was not present before, and otherwise removes the earlier
    occurrences too. *)
Theorem X14_removeRoleFromUser_composes
        (aclConfig : IAclConfig.t) (this : ComposableACL.t)
        (a b : StringOrArray) (role : string) :
  ComposableACL.removeRoleFromUser
      aclConfig (ComposableACL.removeRoleFromUser aclConfig this a) b
    = ComposableACL.removeRoleFromUser
        aclConfig this (Arr (toArray a ++ toArray b)) /\
  ComposableACL.removeRoleFromUser
      aclConfig (ComposableACL.removeRoleFromUser aclConfig this a) b
    = ComposableACL.removeRoleFromUser
        aclConfig (ComposableACL.removeRoleFromUser aclConfig this b) a /\
  ComposableACL.removeRoleFromUser
      aclConfig (ComposableACL.removeRoleFromUser aclConfig this a) a
    = ComposableACL.removeRoleFromUser aclConfig this a /\
  ((forall r, In r (toArray a) -> ~ In r (assignedRoles this)) ->
   assignedRoles (ComposableACL.removeRoleFromUser aclConfig this a)
   = assignedRoles this) /\
  assignedRoles (ComposableACL.removeRoleFromUser aclConfig this (Arr []))
    = assignedRoles this /\
  ComposableACL.removeRoleFromUser
      aclConfig (ComposableACL.appendRoleToUser aclConfig this role)
      (Str role)
    = ComposableACL.removeRoleFromUser aclConfig this (Str role) /\
  (~ In role (assignedRoles this) ->
   assignedRoles
     (ComposableACL.removeRoleFromUser
        aclConfig (ComposableACL.appendRoleToUser aclConfig this role)
        (Str role))
   = assignedRoles this).
Proof.
  assert (Twice : forall x y,
             ComposableACL.removeRoleFromUser
               aclConfig (ComposableACL.removeRoleFromUser aclConfig this x) y
             = ComposableACL.make
                 (filter (notListed (toArray x ++ toArray y))
                         (ComposableACL._aclRoles this))
                 (ComposableACL._aclGroups this)).
  { intros x y. rewrite (mixin_removeRole_object aclConfig this x).
    rewrite mixin_removeRole_object. simpl.
    now rewrite filter_notListed_twice. }
  assert (None : forall x,
             (forall r, In r (toArray x) -> ~ In r (assignedRoles this)) ->
             assignedRoles (ComposableACL.removeRoleFromUser aclConfig this x)
             = assignedRoles this).
  { intros x H. rewrite mixin_removeRole_stored.
    now apply filter_notListed_none. }
  split.
  { rewrite Twice, mixin_removeRole_object. reflexivity. }
  split.
  { rewrite !Twice. f_equal. apply filter_ext_in_bool. intros x.
    rewrite !notListed_app. apply andb_comm. }
  split.
  { rewrite Twice, mixin_removeRole_object. f_equal.
    apply filter_ext_in_bool. intros x. rewrite notListed_app.
    now destruct (notListed (toArray a) x). }
  split; [apply None |].
  split; [apply None; intros r [] |].
  assert (App : ComposableACL.removeRoleFromUser
                  aclConfig (ComposableACL.appendRoleToUser aclConfig this role)
                  (Str role)
                = ComposableACL.removeRoleFromUser aclConfig this (Str role)).
  { rewrite !mixin_removeRole_object. f_equal.
    rewrite <- !assignedRoles_stored, mixin_appendRole_stored.
    rewrite filter_app. simpl.
    assert (E : notListed [role] role = false).
    { destruct (notListed [role] role) eqn:E; auto.
      apply notListed_true in E. elim E. now left. }
    rewrite E. apply app_nil_r. }
  split; [exact App |].
  intros H. rewrite App. apply None. intros r [<- | []]. exact H.
Qed.

(** ** The accessors of the mixin *)

(** X15. What [setAclRoles] stores is what the methods read back through
    [getAclRoles() ?? []], the getter itself returning null in place of an
    empty list; a later write replaces an earlier one; writes to the role
    list and to the group list do not disturb each other.  The same holds
    of the group accessors, so the mixin object meets the entity contract
    the service relies on and its accessors never raise. *)
Theorem X15_mixin_accessors_round_trip
        (this : ComposableACL.t) (names others : list string) :
  assignedRoles (ComposableACL.setAclRoles this names) = names /\
  assignedGroups (ComposableACL.setAclGroups this names) = names /\
  ComposableACL.getAclRoles (ComposableACL.setAclRoles this names)
    = match names with [] => None | _ :: _ => Some names end /\
  ComposableACL.getAclGroups (ComposableACL.setAclGroups this names)
    = match names with [] => None | _ :: _ => Some names end /\
  ComposableACL.setAclRoles (ComposableACL.setAclRoles this others) names
    = ComposableACL.setAclRoles this names /\
  ComposableACL.setAclGroups (ComposableACL.setAclGroups this others) names
    = ComposableACL.setAclGroups this names /\
  ComposableACL.getAclGroups (ComposableACL.setAclRoles this names)
    = ComposableACL.getAclGroups this /\
  ComposableACL.getAclRoles (ComposableACL.setAclGroups this names)
    = ComposableACL.getAclRoles this /\
  ComposableACL.setAclGroups (ComposableACL.setAclRoles this names) others
    = ComposableACL.setAclRoles (ComposableACL.setAclGroups this others)
                                names /\
  replacesRoles ComposableACL.asEntity /\
  replacesGroups ComposableACL.asEntity /\
  accessorsReturn ComposableACL.asEntity.
Proof.
  split; [now rewrite assignedRoles_stored |].
  split; [now rewrite assignedGroups_stored |].
  split; [destruct names; reflexivity |].
  split; [destruct names; reflexivity |].
  repeat (split; [reflexivity |]).
  split; [exact mixin_replacesRoles |].
  split; [exact mixin_replacesGroups | exact mixin_accessorsReturn].
Qed.

(** ** Role checks and assignment *)

Lemma allIncluded_app (assigned l1 l2 : list string) :
  ComposableACL.allIncluded assigned (l1 ++ l2)
  = ComposableACL.allIncluded assigned l1
    && ComposableACL.allIncluded assigned l2.
Proof.
  induction l1 as [| x l1 IH]; simpl; auto.
  destruct (includes assigned x); simpl; auto.
Qed.

Lemma bool_eq_iff (x y : bool) : (x = true <-> y = true) -> x = y.
Proof.
  destruct x, y; intros [H1 H2]; auto.
  symmetry. now apply H1.
Qed.

(** X16. A [hasRole] check on a concatenated list is the conjunction of
    the checks on its parts; its answer depends only on which names are
    requested and which are assigned, not on their order or repetition;
    assigning more roles never turns a true answer into false; and right
    after [assignRoleToUser(L)] the check holds of exactly the inputs
    whose names all occur in [L], of [L] itself in particular. *)
Theorem X16_hasRole_algebra
        (aclConfig : IAclConfig.t) (this that : ComposableACL.t)
        (l1 l2 : list string) (wanted assigned : StringOrArray) :
  ComposableACL.hasRole aclConfig this (Arr (l1 ++ l2))
    = ComposableACL.hasRole aclConfig this (Arr l1)
      && ComposableACL.hasRole aclConfig this (Arr l2) /\
  ((forall r, In r l1 <-> In r l2) ->
   ComposableACL.hasRole aclConfig this (Arr l1)
   = ComposableACL.hasRole aclConfig this (Arr l2)) /\
  ((forall r, In r (assignedRoles this) <-> In r (assignedRoles that)) ->
   ComposableACL.hasRole aclConfig this wanted
   = ComposableACL.hasRole aclConfig that wanted) /\
  ((forall r, In r (assignedRoles this) -> In r (assignedRoles that)) ->
   ComposableACL.hasRole aclConfig this wanted = true ->
   ComposableACL.hasRole aclConfig that wanted = true) /\
  (ComposableACL.hasRole
     aclConfig (ComposableACL.assignRoleToUser aclConfig this assigned)
     wanted = true <->
   forall r, In r (toArray wanted) -> In r (toArray assigned)) /\
  ComposableACL.hasRole
    aclConfig (ComposableACL.assignRoleToUser aclConfig this assigned)
    assigned = true.
Proof.
  assert (After : forall w,
             ComposableACL.hasRole
               aclConfig
               (ComposableACL.assignRoleToUser aclConfig this assigned) w
             = true <->
             forall r, In r (toArray w) -> In r (toArray assigned)).
  { intros w. rewrite hasRole_spec, assignedRoles_stored. simpl. tauto. }
  split.
  { unfold ComposableACL.hasRole. simpl. apply allIncluded_app. }
  split.
  { intros H. apply bool_eq_iff. rewrite !hasRole_spec. simpl.
    split; intros K r Hr; apply K; now apply H. }
  split.
  { intros H. apply bool_eq_iff. rewrite !hasRole_spec.
    split; intros K r Hr; apply H; now apply K. }
  split.
  { intros H K. apply hasRole_spec. intros r Hr. apply H.
    exact (proj1 (hasRole_spec aclConfig this wanted) K r Hr). }
  split; [apply After |].
  apply After. auto.
Qed.

(** ** Scope checks under change *)

Lemma hasScopeLoop_snoc (aclConfig : IAclConfig.t) (this : ComposableACL.t)
      (scope : string) (names : list string) (role : string) :
  ComposableACL.hasScopeLoop aclConfig this (names ++ [role]) scope
  = (granted <- ComposableACL.hasScopeLoop aclConfig this names scope ;;
     if granted then Ok true
     else (resolved <- ComposableACL.getRole aclConfig this role ;;
           Ok (includes (IAclRole.scopes resolved) scope))).
Proof.
  induction names as [| n rest IH]; simpl.
  - destruct (ComposableACL.getRole aclConfig this role) as [r | e];
      simpl; auto.
    now destruct (includes (IAclRole.scopes r) scope).
  - destruct (ComposableACL.getRole aclConfig this n) as [r | e];
      simpl; auto.
    destruct (includes (IAclRole.scopes r) scope); simpl; auto.
Qed.

Lemma hasScopeLoop_any_object (aclConfig : IAclConfig.t)
      (this that : ComposableACL.t) (scope : string) (names : list string) :
  ComposableACL.hasScopeLoop aclConfig this names scope
  = ComposableACL.hasScopeLoop aclConfig that names scope.
Proof.
  induction names as [| n rest IH]; simpl; auto.
  change (ComposableACL.getRole aclConfig this n)
    with (ComposableACL.getRole aclConfig that n).
  destruct (ComposableACL.getRole aclConfig that n) as [r | e]; simpl; auto.
  now rewrite IH.
Qed.

(** X17. Appending a role never revokes a scope: a check that returned
    true before [appendRoleToUser] returns true after it, even when the
    appended name is not a configured role, and a check that raised still
    raises the same error.  A check that returned false now resolves the
    appended name: it returns whether that role grants the scope, and
    raises if the name is not configured. *)
Theorem X17_hasScope_after_append
        (aclConfig : IAclConfig.t) (this : ComposableACL.t)
        (role scope : string) :
  ComposableACL.hasScope
      aclConfig (ComposableACL.appendRoleToUser aclConfig this role) scope
    = (granted <- ComposableACL.hasScope aclConfig this scope ;;
       if granted then Ok true
       else (resolved <- ComposableACL.getRole aclConfig this role ;;
             Ok (includes (IAclRole.scopes resolved) scope))) /\
  (ComposableACL.hasScope aclConfig this scope = Ok true ->
   ComposableACL.hasScope
     aclConfig (ComposableACL.appendRoleToUser aclConfig this role) scope
   = Ok true) /\
  (forall e,
      ComposableACL.hasScope aclConfig this scope = Throw e ->
      ComposableACL.hasScope
        aclConfig (ComposableACL.appendRoleToUser aclConfig this role) scope
      = Throw e) /\
  (ComposableACL.hasScope aclConfig this scope = Ok false ->
   ~ configuredRole aclConfig role ->
   ComposableACL.hasScope
     aclConfig (ComposableACL.appendRoleToUser aclConfig this role) scope
   = Throw (roleNotFound BasicACLException role)).
Proof.
  assert (E : ComposableACL.hasScope
                aclConfig (ComposableACL.appendRoleToUser aclConfig this role)
                scope
              = (granted <- ComposableACL.hasScope aclConfig this scope ;;
                 if granted then Ok true
                 else (resolved <- ComposableACL.getRole aclConfig this role ;;
                       Ok (includes (IAclRole.scopes resolved) scope)))).
  { unfold ComposableACL.hasScope.
    fold (assignedRoles (ComposableACL.appendRoleToUser aclConfig this role)).
    fold (assignedRoles this).
    rewrite mixin_appendRole_stored.
    rewrite (hasScopeLoop_any_object
               aclConfig
               (ComposableACL.appendRoleToUser aclConfig this role) this).
    apply hasScopeLoop_snoc. }
  split; [exact E |].
  split; [intros H; rewrite E, H; reflexivity |].
  split; [intros e H; rewrite E, H; reflexivity |].
  intros H N. rewrite E, H. simpl.
  assert (T : ComposableACL.getRole aclConfig this role
              = Throw (roleNotFound BasicACLException role)).
  { apply mixin_getRole_Throw. auto. }
  rewrite T. reflexivity.
Qed.

(** X18. A [hasScopes] check on a concatenated list is the check on the
    first part followed, only if that one returned true, by the check on
    the second part; so scopes listed after a missing one are never
    examined. *)
Theorem X18_hasScopes_over_append
        (aclConfig : IAclConfig.t) (this : ComposableACL.t)
        (first second : list string) :
  ComposableACL.hasScopes aclConfig this (first ++ second)
    = (held <- ComposableACL.hasScopes aclConfig this first ;;
       if held then ComposableACL.hasScopes aclConfig this second
       else Ok false) /\
  (ComposableACL.hasScopes aclConfig this first = Ok false ->
   ComposableACL.hasScopes aclConfig this (first ++ second) = Ok false) /\
  (ComposableACL.hasScopes aclConfig this (first ++ second) = Ok true <->
   ComposableACL.hasScopes aclConfig this first = Ok true /\
   ComposableACL.hasScopes aclConfig this second = Ok true).
Proof.
  assert (E : ComposableACL.hasScopes aclConfig this (first ++ second)
              = (held <- ComposableACL.hasScopes aclConfig this first ;;
                 if held then ComposableACL.hasScopes aclConfig this second
                 else Ok false)).
  { induction first as [| s rest IH]; simpl; auto.
    destruct (ComposableACL.hasScope aclConfig this s) as [[|] | e];
      simpl; auto. }
  split; [exact E |].
  split; [intros H; rewrite E, H; reflexivity |].
  rewrite E.
  destruct (ComposableACL.hasScopes aclConfig this first) as [[|] | e];
    simpl; split; intros H; try tauto; try discriminate;
    destruct H as [H _]; discriminate.
Qed.

(** ** The scopes of the entity under change *)

Lemma collectScopes_any_object (aclConfig : IAclConfig.t)
      (this that : ComposableACL.t) (names acc : list string) :
  ComposableACL.collectScopes aclConfig this acc names
  = ComposableACL.collectScopes aclConfig that acc names.
Proof.
  revert acc. induction names as [| n rest IH]; intros acc; simpl; auto.
  change (ComposableACL.getRole aclConfig this n)
    with (ComposableACL.getRole aclConfig that n).
  destruct (ComposableACL.getRole aclConfig that n) as [r | e]; simpl; auto.
Qed.

Lemma getRoleScopes_any_object (aclConfig : IAclConfig.t)
      (this that : ComposableACL.t) (names : StringOrArray) :
  ComposableACL.getRoleScopes aclConfig this names
  = ComposableACL.getRoleScopes aclConfig that names.
Proof. apply collectScopes_any_object. Qed.

Lemma user_scopes_of (aclConfig : IAclConfig.t) (this that : ComposableACL.t) :
  ComposableACL.getRoleScopesFromUser aclConfig this
  = ComposableACL.getRoleScopes aclConfig that (Arr (assignedRoles this)).
Proof.
  rewrite mixin_getRoleScopesFromUser_assigned.
  apply getRoleScopes_any_object.
Qed.

(** X19. The scopes of the entity follow its role list: right after
    [assignRoleToUser(L)] they are [getRoleScopes(L)]; after
    [appendRoleToUser(r)] they are the previous scopes followed by those of
    [r]; and an entity assigned the role names of a group has exactly the
    scopes of that group.  Through the service the first holds of any
    entity whose setter replaces the list. *)
Theorem X19_user_scopes_follow_role_list
        (aclConfig : IAclConfig.t) (this : ComposableACL.t)
        (names : StringOrArray) (role : string) (g : IAclGroup.t) :
  ComposableACL.getRoleScopesFromUser
      aclConfig (ComposableACL.assignRoleToUser aclConfig this names)
    = ComposableACL.getRoleScopes aclConfig this names /\
  ComposableACL.getRoleScopesFromUser
      aclConfig (ComposableACL.appendRoleToUser aclConfig this role)
    = (before <- ComposableACL.getRoleScopesFromUser aclConfig this ;;
       added <- ComposableACL.getRoleScopes aclConfig this (Str role) ;;
       Ok (before ++ added)) /\
  ComposableACL.getRoleScopesFromUser
      aclConfig
      (ComposableACL.assignRoleToUser aclConfig this
                                      (Arr (IAclGroup.roles g)))
    = ComposableACL.getGroupScopes aclConfig this (GroupValue g) /\
  (forall (S : Type) (data : IAccessControlEntity.t S) service st st',
      replacesRoles data ->
      BasicACLService.assignRoleToUser data service st names = Ok st' ->
      BasicACLService.getRoleScopesFromUser data service st'
      = BasicACLService.getRoleScopes service names).
Proof.
  assert (A : forall l,
             ComposableACL.getRoleScopesFromUser
               aclConfig (ComposableACL.assignRoleToUser aclConfig this l)
             = ComposableACL.getRoleScopes aclConfig this l).
  { intros l. rewrite (user_scopes_of aclConfig _ this).
    rewrite assignedRoles_stored. reflexivity. }
  split; [apply A |].
  split.
  { rewrite (user_scopes_of aclConfig _ this), mixin_appendRole_stored.
    rewrite mixin_getRoleScopes_app, <- mixin_getRoleScopes_one.
    now rewrite <- mixin_getRoleScopesFromUser_assigned. }
  split.
  { rewrite A. symmetry. apply mixin_getGroupScopes_value. }
  intros S data service st st' Hset H.
  apply Hset in H. unfold currentRoles in H.
  unfold BasicACLService.getRoleScopesFromUser,
    BasicACLService.getRoleScopes.
  destruct (IAccessControlEntity.getAclRoles data st') as [got | e];
    simpl in *; [| discriminate].
  injection H as H. rewrite <- H. destruct got; reflexivity.
Qed.

Lemma Subseq_refl (A : Type) (l : list A) : Subseq l l.
Proof. induction l; now constructor. Qed.

Lemma Subseq_app_same (A : Type) (p xs ys : list A) :
  Subseq xs ys -> Subseq (p ++ xs) (p ++ ys).
Proof. intros H. induction p; simpl; auto. now constructor. Qed.

Lemma Subseq_app_skip (A : Type) (p xs ys : list A) :
  Subseq xs ys -> Subseq xs (p ++ ys).
Proof. intros H. induction p; simpl; auto. now constructor. Qed.

Lemma Subseq_In (A : Type) (xs ys : list A) (x : A) :
  Subseq xs ys -> In x xs -> In x ys.
Proof.
  induction 1 as [| y xs ys _ IH | y xs ys _ IH]; simpl; auto.
  intros [<- | H]; auto.
Qed.

Lemma mapGetRole_filter (aclConfig : IAclConfig.t) (this : ComposableACL.t)
      (keep : string -> bool) (names : list string)
      (roles : list IAclRole.t) :
  ComposableACL.mapGetRole aclConfig this names = Ok roles ->
  exists kept,
    ComposableACL.mapGetRole aclConfig this (filter keep names) = Ok kept /\
    Subseq (concat (map IAclRole.scopes kept))
           (concat (map IAclRole.scopes roles)).
Proof.
  revert roles. induction names as [| n rest IH]; intros roles; simpl.
  - intros H. injection H as <-. exists []. split; auto. constructor.
  - destruct (ComposableACL.getRole aclConfig this n) as [r | e] eqn:E;
      simpl; [| discriminate].
    destruct (ComposableACL.mapGetRole aclConfig this rest) as [rs | e];
      simpl; [| discriminate].
    intros H. injection H as <-.
    destruct (IH rs eq_refl) as (kept & Hk & Hs).
    destruct (keep n); simpl.
    + rewrite E. simpl. rewrite Hk. simpl. exists (r :: kept).
      split; auto. simpl. now apply Subseq_app_same.
    + exists kept. split; auto. simpl. now apply Subseq_app_skip.
Qed.

Lemma user_scopes_resolved (aclConfig : IAclConfig.t)
      (this : ComposableACL.t) (scopes : list string) :
  ComposableACL.getRoleScopesFromUser aclConfig this = Ok scopes <->
  exists roles,
    ComposableACL.mapGetRole aclConfig this (assignedRoles this) = Ok roles /\
    scopes = concat (map IAclRole.scopes roles).
Proof.
  rewrite mixin_getRoleScopesFromUser_assigned.
  unfold ComposableACL.getRoleScopes. simpl.
  rewrite mixin_collect_is_map_flat.
  destruct (ComposableACL.mapGetRole aclConfig this (assignedRoles this))
    as [rs | e]; simpl.
  - split.
    + intros H. injection H as <-. now exists rs.
    + intros (roles & H & ->). now injection H as ->.
  - split; [discriminate |]. intros (roles & H & _). discriminate.
Qed.

Lemma hasScope_of_user_scopes (aclConfig : IAclConfig.t)
      (this : ComposableACL.t) (scopes : list string) (scope : string) :
  ComposableACL.getRoleScopesFromUser aclConfig this = Ok scopes ->
  ComposableACL.hasScope aclConfig this scope = Ok (includes scopes scope).
Proof.
  intros H. apply user_scopes_resolved in H. destruct H as (roles & H & ->).
  unfold ComposableACL.hasScope. fold (assignedRoles this).
  now apply hasScopeLoop_resolved.
Qed.

(** X20. When every assigned role resolves, removing roles never grants
    anything: after [removeRoleFromUser] the scope list is still defined
    and is a subsequence of the previous one, every scope check that now
    returns true returned true before, and every check that returned false
    still returns false. *)
Theorem X20_removal_never_grants
        (aclConfig : IAclConfig.t) (this : ComposableACL.t)
        (names : StringOrArray) (scopes : list string) :
  ComposableACL.getRoleScopesFromUser aclConfig this = Ok scopes ->
  exists remaining,
    ComposableACL.getRoleScopesFromUser
      aclConfig (ComposableACL.removeRoleFromUser aclConfig this names)
    = Ok remaining /\
    Subseq remaining scopes /\
    (forall scope,
        ComposableACL.hasScope
          aclConfig (ComposableACL.removeRoleFromUser aclConfig this names)
          scope = Ok true ->
        ComposableACL.hasScope aclConfig this scope = Ok true) /\
    (forall scope,
        ComposableACL.hasScope aclConfig this scope = Ok false ->
        ComposableACL.hasScope
          aclConfig (ComposableACL.removeRoleFromUser aclConfig this names)
          scope = Ok false).
Proof.
  intros H. pose proof H as H0.
  apply user_scopes_resolved in H. destruct H as (roles & H & ->).
  destruct (mapGetRole_filter aclConfig this (notListed (toArray names))
                              (assignedRoles this) H)
    as (kept & Hk & Hs).
  exists (concat (map IAclRole.scopes kept)).
  assert (R : ComposableACL.getRoleScopesFromUser
                aclConfig
                (ComposableACL.removeRoleFromUser aclConfig this names)
              = Ok (concat (map IAclRole.scopes kept))).
  { rewrite (user_scopes_of aclConfig _ this), mixin_removeRole_stored.
    unfold ComposableACL.getRoleScopes. simpl.
    rewrite mixin_collect_is_map_flat, Hk. reflexivity. }
  assert (Imp : forall scope,
             includes (concat (map IAclRole.scopes kept)) scope = true ->
             includes (concat (map IAclRole.scopes roles)) scope = true).
  { intros scope K. apply includes_In. apply includes_In in K.
    eapply Subseq_In; eauto. }
  split; [exact R |]. split; [exact Hs |].
  split.
  - intros scope K.
    rewrite (hasScope_of_user_scopes aclConfig _ scope R) in K.
    rewrite (hasScope_of_user_scopes aclConfig this scope H0).
    injection K as K. now rewrite (Imp scope K).
  - intros scope K.
    rewrite (hasScope_of_user_scopes aclConfig this scope H0) in K.
    rewrite (hasScope_of_user_scopes aclConfig _ scope R).
    injection K as K.
    destruct (includes (concat (map IAclRole.scopes kept)) scope) eqn:E;
      auto.
    rewrite (Imp scope E) in K. discriminate.
Qed.

(** X20 on an object with both roles of the README's configuration, from
    which "role_admin" is removed. *)
Lemma X20_removal_never_grants_example :
  exists remaining,
    ComposableACL.getRoleScopesFromUser
      exampleConfig
      (ComposableACL.removeRoleFromUser
         exampleConfig (ComposableACL.make ["role_admin"; "role_user"] [])
         (Str "role_admin"))
    = Ok remaining /\
    Subseq remaining
           ["read:all"; "write:all"; "delete:all"; "read:own"; "write:own"] /\
    (forall scope,
        ComposableACL.hasScope
          exampleConfig
          (ComposableACL.removeRoleFromUser
             exampleConfig (ComposableACL.make ["role_admin"; "role_user"] [])
             (Str "role_admin"))
          scope = Ok true ->
        ComposableACL.hasScope
          exampleConfig (ComposableACL.make ["role_admin"; "role_user"] [])
          scope = Ok true) /\
    (forall scope,
        ComposableACL.hasScope
          exampleConfig (ComposableACL.make ["role_admin"; "role_user"] [])
          scope = Ok false ->
        ComposableACL.hasScope
          exampleConfig
          (ComposableACL.removeRoleFromUser
             exampleConfig (ComposableACL.make ["role_admin"; "role_user"] [])
             (Str "role_admin"))
          scope = Ok false).
Proof.
  apply (@X20_removal_never_grants
           exampleConfig (ComposableACL.make ["role_admin"; "role_user"] [])
           (Str "role_admin")
           ["read:all"; "write:all"; "delete:all"; "read:own"; "write:own"]).
  reflexivity.
Defined.

(** Without that hypothesis a removal can turn an error into a grant. *)
Example removal_of_unconfigured_name_unblocks :
  ComposableACL.hasScope exampleConfig ghostThenUser "read:own"
  = Throw (roleNotFound BasicACLException "ghost") /\
  ComposableACL.hasScope
    exampleConfig
    (ComposableACL.removeRoleFromUser exampleConfig ghostThenUser
                                      (Str "ghost"))
    "read:own"
  = Ok true.
Proof. split; reflexivity. Qed.
